(** * Pass managers and the ASAP / ALAP scheduling passes

    A shallow embedding of
    - [qiskit/transpiler/passes/scheduling/asap.py]  ([ASAPSchedule.run]),
    - [qiskit/transpiler/passes/scheduling/alap.py]  ([ALAPSchedule.run]),
    - [qiskit/transpiler/passmanager.py]  ([PassManager], [StagedPassManager]).

    Python exceptions are values of [exn]; a fallible computation returns
    a [result].  Dictionaries whose iteration order the code relies on are
    association lists; the other dictionaries are [gmap]s. *)

From stdpp Require Import gmap strings list.
From Stdlib Require Import ZArith Ascii DecimalString.

Local Open Scope Z_scope.
Local Open Scope string_scope.
Local Open Scope list_scope.

(* ===================================================================== *)
(** ** Python values, exceptions and results *)
(* ===================================================================== *)

Module Py.

Inductive exn : Type :=
| TranspilerError (msg : string)
| DAGCircuitError (msg : string)
| NameError (name : string)
| KeyError (key : string)
| ValueError (msg : string)
| TypeError (msg : string)
| AttributeError (msg : string)
| NotImplementedError.

Inductive result (A : Type) : Type :=
| Return (a : A)
| Raise (e : exn).
Arguments Return {A} a.
Arguments Raise {A} e.

(** Sequencing: an exception of the first statement skips the rest. *)
Definition bind {A B : Type} (m : result A) (k : A → result B) : result B :=
  match m with Return a => k a | Raise e => Raise e end.

Notation "'let!' x := m 'in' k" := (bind m (λ x, k))
  (at level 10, x name, m at level 100, k at level 200).

#[global] Instance result_fmap : FMap result :=
  λ A B f m, match m with Return a => Return (f a) | Raise e => Raise e end.

Section Loops.
Context {A B : Type}.

(** [for x in l: acc = f(acc, x)], stopping at the first exception. *)
Section foldM.
Variable f : A → B → result A.
Fixpoint foldM (acc : A) (l : list B) : result A :=
  match l with
  | [] => Return acc
  | x :: l' => let! acc' := f acc x in foldM acc' l'
  end.
End foldM.

(** [[f(x) for x in l]], stopping at the first exception. *)
Section forM.
Variable f : A → result B.
Fixpoint forM (l : list A) : result (list B) :=
  match l with
  | [] => Return []
  | x :: l' => let! y := f x in let! ys := forM l' in Return (y :: ys)
  end.
End forM.

End Loops.

(** The values a property set holds, as far as the embedded code looks at
    them. *)
Inductive value : Type :=
| VNone
| VBool (b : bool)
| VInt (z : Z)
| VStr (s : string).

(** [str(n)] for a non-negative int. *)
Definition str_nat (n : nat) : string :=
  NilEmpty.string_of_uint (Nat.to_uint n).

(** The inside of [str(l)] for a list of non-negative ints. *)
Fixpoint join_nat (l : list nat) : string :=
  match l with
  | [] => ""
  | n :: l' =>
      match l' with
      | [] => str_nat n
      | _ :: _ => str_nat n +:+ ", " +:+ join_nat l'
      end
  end.

(** [str(z)] for an int. *)
Definition str_Z (z : Z) : string := NilEmpty.string_of_int (Z.to_int z).

(** [str(l)]: ["[0, 1]"]. *)
Definition str_list_nat (l : list nat) : string := "[" +:+ join_nat l +:+ "]".

(** [max(l)]: the builtin raises [ValueError] on an empty sequence. *)
Definition max (l : list Z) : result Z :=
  match l with
  | [] => Raise (ValueError "max() arg is an empty sequence")
  | z :: l' => Return (fold_left Z.max l' z)
  end.

(** Loading a name that neither the function nor its module nor the
    builtins bind. *)
Definition unbound_name {A : Type} (name : string) : result A :=
  Raise (NameError name).

(** An insertion-ordered [dict]: keys are unique, [d[k] = v] overwrites in
    place or appends at the end. *)
Section Dict.
Context {K V : Type} `{EqDecision K}.

Fixpoint dict_get (d : list (K * V)) (k : K) : option V :=
  match d with
  | [] => None
  | (k', v) :: d' => if decide (k' = k) then Some v else dict_get d' k
  end.

Fixpoint dict_set (d : list (K * V)) (k : K) (v : V) : list (K * V) :=
  match d with
  | [] => [(k, v)]
  | (k', v') :: d' =>
      if decide (k' = k) then (k', v) :: d' else (k', v') :: dict_set d' k v
  end.

(** [{k: v for k in keys}] *)
Definition dict_fromkeys (keys : list K) (v : V) : list (K * V) :=
  fold_left (λ d k, dict_set d k v) keys [].

End Dict.

(** [{k: i for i, k in enumerate(keys)}] *)
Definition dict_enumerate {K : Type} `{EqDecision K} (keys : list K)
  : list (K * nat) :=
  fold_left (λ d ik, dict_set d ik.2 ik.1) (imap pair keys) [].

End Py.
Import Py.

(* ===================================================================== *)
(** ** The program graph *)
(* ===================================================================== *)

(** [DAGCircuit], its nodes and its instructions live in [qiskit/dagcircuit]
    and [qiskit/circuit], which are not part of the sources at hand; what
    the scheduling passes read and write of them is modelled here. *)
Module DAG.

Inductive Bit : Type :=
| Qubit (id : nat)
| Clbit (id : nat).

#[global] Instance Bit_eq_dec : EqDecision Bit.
Proof. solve_decision. Defined.

(** [isinstance(bit, Qubit)] *)
Definition is_qubit (b : Bit) : bool :=
  match b with Qubit _ => true | Clbit _ => false end.

(** [node.op.duration]: unset, a number, or a [ParameterExpression]. *)
Inductive Duration : Type :=
| DurNone
| DurValue (d : Z)
| DurParameterExpression (expr : string).

Inductive OpClass : Type :=
| Gate
| Measure
| Delay.

Record Instruction : Type := {
  op_class : OpClass;
  op_name : string;
  op_params : list Z;
  op_duration : Duration;
  op_unit : value;
  condition_bits : list Bit
}.

(** [isinstance(op, Measure)] *)
Definition is_measure (op : Instruction) : bool :=
  match op_class op with Measure => true | _ => false end.

(** [Delay(duration, unit)] *)
Definition new_Delay (d : Z) (u : value) : Instruction :=
  {| op_class := Delay; op_name := "delay"; op_params := [d];
     op_duration := DurValue d; op_unit := u; condition_bits := [] |}.

Record DAGOpNode : Type := {
  node_op : Instruction;
  qargs : list Bit;
  cargs : list Bit
}.

(** [node.op.duration = d] *)
Definition set_duration (node : DAGOpNode) (d : Duration) : DAGOpNode :=
  let op := node_op node in
  {| node_op := {| op_class := op_class op; op_name := op_name op;
                   op_params := op_params op; op_duration := d;
                   op_unit := op_unit op;
                   condition_bits := condition_bits op |};
     qargs := qargs node; cargs := cargs node |}.

(** The calibration table: operation name, then (qubit indices, parameters),
    to the duration of the calibrated schedule. *)
Abbreviation Calibrations := (gmap string (gmap (list nat * list Z) Duration)).

(** Modelled from the spec: the program graph, which is declared in
    [qiskit/dagcircuit/dagcircuit.py].  The record keeps the registers
    (ordered dictionaries), the bits, the operation nodes in the
    deterministic topological order the graph exposes, the calibration table
    and the schedule annotations. *)
Record DAGCircuit : Type := {
  name : option string;
  metadata : option (list (string * string));
  calibrations : Calibrations;
  qregs : list (string * list Bit);
  cregs : list (string * list Bit);
  qubits : list Bit;
  clbits : list Bit;
  op_nodes : list DAGOpNode;
  duration : option Z;
  unit : value
}.

(** [DAGCircuit()] *)
Definition new_DAGCircuit : DAGCircuit :=
  {| name := None; metadata := None; calibrations := ∅;
     qregs := []; cregs := []; qubits := []; clbits := [];
     op_nodes := []; duration := None; unit := VStr "dt" |}.

(** The bits a register brings to a graph that already has [existing]. *)
Definition fresh_bits (existing bits : list Bit) : list Bit :=
  filter (λ b, b ∉ existing) bits.

(** Modelled from the spec: [dag.add_qreg(qreg)] of the graph class.  A
    register name is declared once; the bits the graph does not have yet
    are appended. *)
Definition add_qreg (dag : DAGCircuit) (reg : string * list Bit)
  : result DAGCircuit :=
  if decide (is_Some (dict_get (qregs dag) reg.1)) then
    Raise (DAGCircuitError ("duplicate register " +:+ reg.1))
  else
    Return {| name := name dag; metadata := metadata dag;
              calibrations := calibrations dag;
              qregs := qregs dag ++ [reg]; cregs := cregs dag;
              qubits := qubits dag ++ fresh_bits (qubits dag) reg.2;
              clbits := clbits dag;
              op_nodes := op_nodes dag; duration := duration dag;
              unit := unit dag |}.

(** Modelled from the spec: [dag.add_creg(creg)], like [add_qreg]. *)
Definition add_creg (dag : DAGCircuit) (reg : string * list Bit)
  : result DAGCircuit :=
  if decide (is_Some (dict_get (cregs dag) reg.1)) then
    Raise (DAGCircuitError ("duplicate register " +:+ reg.1))
  else
    Return {| name := name dag; metadata := metadata dag;
              calibrations := calibrations dag;
              qregs := qregs dag; cregs := cregs dag ++ [reg];
              qubits := qubits dag;
              clbits := clbits dag ++ fresh_bits (clbits dag) reg.2;
              op_nodes := op_nodes dag; duration := duration dag;
              unit := unit dag |}.

Definition with_op_nodes (dag : DAGCircuit) (nodes : list DAGOpNode)
  : DAGCircuit :=
  {| name := name dag; metadata := metadata dag;
     calibrations := calibrations dag;
     qregs := qregs dag; cregs := cregs dag;
     qubits := qubits dag; clbits := clbits dag;
     op_nodes := nodes; duration := duration dag; unit := unit dag |}.

(** Modelled from the spec: [dag.apply_operation_back(op, qargs, cargs)];
    the node comes last in the topological order. *)
Definition apply_operation_back (dag : DAGCircuit) (op : Instruction)
    (qs cs : list Bit) : DAGCircuit :=
  with_op_nodes dag
    (op_nodes dag ++ [{| node_op := op; qargs := qs; cargs := cs |}]).

(** Modelled from the spec: [dag.apply_operation_front(op, qargs, cargs)];
    the node comes first in the topological order. *)
Definition apply_operation_front (dag : DAGCircuit) (op : Instruction)
    (qs cs : list Bit) : DAGCircuit :=
  with_op_nodes dag
    ({| node_op := op; qargs := qs; cargs := cs |} :: op_nodes dag).

(** Modelled from the spec: [dag.topological_op_nodes()], the operation
    nodes in the order the graph keeps them. *)
Definition topological_op_nodes (dag : DAGCircuit) : list DAGOpNode :=
  op_nodes dag.

(** Modelled from the spec: [dag.has_calibration_for(node)], the table
    being keyed by operation name, qubit indices and parameters. *)
Definition has_calibration_for (dag : DAGCircuit) (node : DAGOpNode)
    (indices : list nat) : bool :=
  match calibrations dag !! op_name (node_op node) with
  | Some table => bool_decide (is_Some (table !! (indices, op_params (node_op node))))
  | None => false
  end.

(** The bits of a graph are those its registers declare. *)
Definition declared_bits (regs : list (string * list Bit)) : list Bit :=
  fold_left (λ (bits : list Bit) (reg : string * list Bit),
               bits ++ fresh_bits bits reg.2) regs [].

Definition bits_declared (dag : DAGCircuit) : Prop :=
  qubits dag = declared_bits (qregs dag) ∧
  clbits dag = declared_bits (cregs dag).

End DAG.
Import DAG.

(* ===================================================================== *)
(** ** The scheduling passes *)
(* ===================================================================== *)

Module Scheduling.

(** The names the two modules bind at top level ([asap.py] and [alap.py]
    import the same things and define one class each), the locals of
    [run], and the builtins [run] calls. *)
Definition module_globals : list string :=
  ["warnings"; "Delay"; "Qubit"; "Measure"; "DAGCircuit"; "TranspilerError";
   "TimeUnitConversion"; "BaseSchedulerTransform"; "ASAPSchedule";
   "ALAPSchedule"].

Definition run_locals : list string :=
  ["self"; "dag"; "time_unit"; "new_dag"; "qreg"; "creg"; "idle_after";
   "idle_before"; "bit_indices"; "node"; "indices"; "clbit_time_available";
   "delta"; "start_time"; "bit"; "circuit_duration"; "after"; "before"].

Definition builtins_used : list string :=
  ["len"; "enumerate"; "isinstance"; "tuple"; "float"; "max"; "reversed";
   "list"].

(** The names [run] loads although nothing binds them: they are neither
    imported nor assigned in either file.  Python raises [NameError] when
    it executes the first such load. *)
Definition names_never_bound : list string :=
  ["ParameterExpression"; "clbit_writeable"; "clbit_readable"; "itertools";
   "qubit_time_available"; "pad_with_delays"; "t0"; "t1"].

(** [bit_indices[qarg]] *)
Definition bit_index (bit_indices : list (Bit * nat)) (qarg : Bit)
  : result nat :=
  match dict_get bit_indices qarg with
  | Some i => Return i
  | None => Raise (KeyError "qarg")
  end.

(** [dag.calibrations[name][(indices, params)].duration] *)
Definition calibrated_duration (dag : DAGCircuit) (node : DAGOpNode)
    (indices : list nat) : result Duration :=
  match calibrations dag !! op_name (node_op node) with
  | None => Raise (KeyError (op_name (node_op node)))
  | Some table =>
      match table !! (indices, op_params (node_op node)) with
      | None => Raise (KeyError "(indices, params)")
      | Some d => Return d
      end
  end.

(** The first half of "validate node.op.duration": an unset duration is
    looked up in the calibration table and written back to the node; one
    that stays unset is an error.  (The instruction is shared with the
    input graph, which [run] does not read again.) *)
Definition resolve_duration (dag : DAGCircuit) (bit_indices : list (Bit * nat))
    (node : DAGOpNode) : result DAGOpNode :=
  match op_duration (node_op node) with
  | DurNone =>
      let! indices := forM (bit_index bit_indices) (qargs node) in
      let! node := (if has_calibration_for dag node indices
              then set_duration node <$> calibrated_duration dag node indices
              else Return node) in
      match op_duration (node_op node) with
      | DurNone =>
          Raise (TranspilerError
                   ("Duration of " +:+ op_name (node_op node) +:+ " on qubits "
                    +:+ str_list_nat indices +:+ " is not found."))
      | _ => Return node
      end
  | _ => Return node
  end.

(** [f"Parameterized duration ({duration}) of {name} on qubits {indices} is
    not bounded."] *)
Definition not_bounded_message (node : DAGOpNode) (indices : list nat)
  : string :=
  "Parameterized duration ("
  +:+ match op_duration (node_op node) with
      | DurParameterExpression e => e
      | _ => ""
      end
  +:+ ") of " +:+ op_name (node_op node) +:+ " on qubits "
  +:+ str_list_nat indices +:+ " is not bounded.".

(** A duration used as a number. *)
Definition as_number (d : Duration) : result Z :=
  match d with
  | DurValue z => Return z
  | _ => Raise (TypeError "unsupported operand type(s) for -")
  end.

(** [d[bit]] on a time table. *)
Definition time_of (d : list (Bit * Z)) (bit : Bit) : result Z :=
  match dict_get d bit with
  | Some t => Return t
  | None => Raise (KeyError "bit")
  end.

(** *** [ASAPSchedule] *)

(** One turn of [for node in dag.topological_op_nodes():] in
    [ASAPSchedule.run]; the comments give the lines of [asap.py].  The
    statements are kept in the order Python executes them, the unbound
    names included. *)
Definition asap_schedule_node (dag : DAGCircuit) (time_unit : value)
    (bit_indices : list (Bit * nat)) (st : DAGCircuit * list (Bit * Z))
    (node : DAGOpNode) : result (DAGCircuit * list (Bit * Z)) :=
  (* 75-85 *)
  let! node := resolve_duration dag bit_indices node in
  (* 86-91 *)
  let! ParameterExpression := unbound_name (A := Duration → bool) "ParameterExpression" in
  if ParameterExpression (op_duration (node_op node)) then
    let! indices := forM (bit_index bit_indices) (qargs node) in
    Raise (TranspilerError (not_bounded_message node indices))
  else
  (* 93-95 *)
  let! clbit_time_available :=
    (if is_measure (node_op node)
     then unbound_name (A := Bit → Z) "clbit_writeable"
     else unbound_name (A := Bit → Z) "clbit_readable") in
  (* 97 *)
  let! delta := (if is_measure (node_op node)
           then as_number (op_duration (node_op node)) else Return 0) in
  (* 99-104 *)
  let! chain := unbound_name (A := list Z → list Z → list Z) "itertools" in
  let! qubit_time_available := unbound_name (A := Bit → Z) "qubit_time_available" in
  let! start_time :=
    max (chain (qubit_time_available <$> qargs node)
               ((λ c, clbit_time_available c - delta)
                  <$> (cargs node ++ condition_bits (node_op node)))) in
  (* 106 *)
  let! pad_with_delays :=
    unbound_name (A := list Bit → Z → value → result ()) "pad_with_delays" in
  let! padded := pad_with_delays (qargs node) start_time time_unit in
  (* 109-113 *)
  let! st := foldM (λ (st : DAGCircuit * list (Bit * Z)) (bit : Bit),
                let! t0 := unbound_name (A := Z) "t0" in
                let! after := time_of st.2 bit in
                let delta := t0 - after in
                let new_dag :=
                  if bool_decide (delta > 0) && is_qubit bit
                  then apply_operation_back st.1 (new_Delay delta time_unit) [bit] []
                  else st.1 in
                let! t1 := unbound_name (A := Z) "t1" in
                Return (new_dag, dict_set st.2 bit t1))
             st (qargs node) in
  (* 115 *)
  Return (apply_operation_back st.1 (node_op node) (qargs node) (cargs node),
          st.2).

(** Lines 118-122: the trailing fill, in the order of the dictionary. *)
Definition pad_back (time_unit : value) (circuit_duration : Z)
    (idle_after : list (Bit * Z)) (new_dag : DAGCircuit) : DAGCircuit :=
  fold_left
    (λ (new_dag : DAGCircuit) (item : Bit * Z),
       let delta := circuit_duration - item.2 in
       if negb (bool_decide (delta > 0) && is_qubit item.1) then new_dag
       else apply_operation_back new_dag (new_Delay delta time_unit) [item.1] [])
    idle_after new_dag.

(** Lines 124-130: the three copied fields and the schedule annotations. *)
Definition finish (dag new_dag : DAGCircuit) (circuit_duration : Z)
    (time_unit : value) : DAGCircuit :=
  {| name := name dag; metadata := metadata dag;
     calibrations := calibrations dag;
     qregs := qregs new_dag; cregs := cregs new_dag;
     qubits := qubits new_dag; clbits := clbits new_dag;
     op_nodes := op_nodes new_dag;
     duration := Some circuit_duration; unit := time_unit |}.

(** [self.property_set["time_unit"]]: a property set answers [None] for a
    key it does not have. *)
Definition get_time_unit (property_set : gmap string value) : value :=
  default VNone (property_set !! "time_unit").

(** [len(dag.qregs) != 1 or dag.qregs.get("q", None) is None] *)
Definition not_physical (dag : DAGCircuit) : bool :=
  negb (bool_decide (length (qregs dag) = 1%nat))
  || bool_decide (dict_get (qregs dag) "q" = None).

(** Lines 65-69: the new graph with the registers of the old one. *)
Definition copy_registers (dag : DAGCircuit) : result DAGCircuit :=
  let! new_dag := foldM add_qreg new_DAGCircuit (qregs dag) in
  foldM add_creg new_dag (cregs dag).

(** [ASAPSchedule.run(self, dag)], [self.property_set] being given. *)
Definition ASAPSchedule_run (property_set : gmap string value)
    (dag : DAGCircuit) : result DAGCircuit :=
  if not_physical dag then
    Raise (TranspilerError "ASAP schedule runs on physical circuits only")
  else
    let time_unit := get_time_unit property_set in
    let! new_dag := copy_registers dag in
    let idle_after := dict_fromkeys (qubits dag ++ clbits dag) 0 in
    let bit_indices := dict_enumerate (qubits dag) in
    let! st := foldM (asap_schedule_node dag time_unit bit_indices)
               (new_dag, idle_after) (topological_op_nodes dag) in
    let! circuit_duration := max st.2.*2 in
    let new_dag := pad_back time_unit circuit_duration st.2 st.1 in
    Return (finish dag new_dag circuit_duration time_unit).

(** *** [ALAPSchedule] *)

(** One turn of [for node in reversed(list(dag.topological_op_nodes())):]
    in [ALAPSchedule.run]; the comments give the lines of [alap.py]. *)
Definition alap_schedule_node (dag : DAGCircuit) (time_unit : value)
    (bit_indices : list (Bit * nat)) (st : DAGCircuit * list (Bit * Z))
    (node : DAGOpNode) : result (DAGCircuit * list (Bit * Z)) :=
  (* 74-84 *)
  let! node := resolve_duration dag bit_indices node in
  (* 85-90 *)
  let! ParameterExpression := unbound_name (A := Duration → bool) "ParameterExpression" in
  if ParameterExpression (op_duration (node_op node)) then
    let! indices := forM (bit_index bit_indices) (qargs node) in
    Raise (TranspilerError (not_bounded_message node indices))
  else
  (* 92-94 *)
  let! clbit_time_available :=
    (if is_measure (node_op node)
     then unbound_name (A := Bit → Z) "clbit_writeable"
     else unbound_name (A := Bit → Z) "clbit_readable") in
  (* 96 *)
  let! delta := (if is_measure (node_op node)
           then Return 0 else as_number (op_duration (node_op node))) in
  (* 98-103 *)
  let! chain := unbound_name (A := list Z → list Z → list Z) "itertools" in
  let! qubit_time_available := unbound_name (A := Bit → Z) "qubit_time_available" in
  let! start_time :=
    max (chain (qubit_time_available <$> qargs node)
               ((λ c, clbit_time_available c - delta)
                  <$> (cargs node ++ condition_bits (node_op node)))) in
  (* 105 *)
  let! pad_with_delays :=
    unbound_name (A := list Bit → Z → value → result ()) "pad_with_delays" in
  let! padded := pad_with_delays (qargs node) start_time time_unit in
  (* 107-111 *)
  let! st := foldM (λ (st : DAGCircuit * list (Bit * Z)) (bit : Bit),
                let! t0 := unbound_name (A := Z) "t0" in
                let! before := time_of st.2 bit in
                let delta := t0 - before in
                let new_dag :=
                  if bool_decide (delta > 0)
                  then apply_operation_front st.1 (new_Delay delta time_unit) [bit] []
                  else st.1 in
                let! t1 := unbound_name (A := Z) "t1" in
                Return (new_dag, dict_set st.2 bit t1))
             st (qargs node) in
  (* 113 *)
  Return (apply_operation_front st.1 (node_op node) (qargs node) (cargs node),
          st.2).

(** Lines 116-120: the leading fill, in the order of the dictionary. *)
Definition pad_front (time_unit : value) (circuit_duration : Z)
    (idle_before : list (Bit * Z)) (new_dag : DAGCircuit) : DAGCircuit :=
  fold_left
    (λ (new_dag : DAGCircuit) (item : Bit * Z),
       let delta := circuit_duration - item.2 in
       if negb (bool_decide (delta > 0) && is_qubit item.1) then new_dag
       else apply_operation_front new_dag (new_Delay delta time_unit) [item.1] [])
    idle_before new_dag.

(** [ALAPSchedule.run(self, dag)], [self.property_set] being given. *)
Definition ALAPSchedule_run (property_set : gmap string value)
    (dag : DAGCircuit) : result DAGCircuit :=
  if not_physical dag then
    Raise (TranspilerError "ALAP schedule runs on physical circuits only")
  else
    let time_unit := get_time_unit property_set in
    let! new_dag := copy_registers dag in
    let idle_before := dict_fromkeys (qubits dag ++ clbits dag) 0 in
    let bit_indices := dict_enumerate (qubits dag) in
    let! st := foldM (alap_schedule_node dag time_unit bit_indices)
               (new_dag, idle_before) (reverse (topological_op_nodes dag)) in
    let! circuit_duration := max st.2.*2 in
    let new_dag := pad_front time_unit circuit_duration st.2 st.1 in
    Return (finish dag new_dag circuit_duration time_unit).

End Scheduling.
Import Scheduling.

(* ===================================================================== *)
(** ** Passes, flow controllers and the running pass manager *)
(* ===================================================================== *)

(** [BasePass], [FlowController] and [RunningPassManager] live in
    [qiskit/transpiler/basepasses.py] and
    [qiskit/transpiler/runningpassmanager.py], which are not part of the
    sources at hand. *)
Module Engine.

Abbreviation PropertySet := (gmap string value).
Abbreviation Predicate := (gmap string value → bool).

(** Modelled from the spec: a pass, which is the single operation
    [run(graph, property_set) -> graph']. *)
Record BasePass : Type := {
  pass_name : string;
  pass_run : DAGCircuit → PropertySet → result (DAGCircuit * PropertySet)
}.

(** Modelled from the spec: the flow controllers [Sequence(passes)],
    [Conditional(predicate, passes)] and
    [DoWhile(predicate, passes, max_iterations)], whose elements are passes
    or nested controllers. *)
#[warnings="-register-all"]
Inductive FlowController : Type :=
| Sequence (passes : list (BasePass + FlowController))
| Conditional (predicate : Predicate)
    (passes : list (BasePass + FlowController))
| DoWhile (predicate : Predicate)
    (passes : list (BasePass + FlowController)) (max_iterations : nat).

Abbreviation Element := (BasePass + FlowController)%type.

(** The identity of a callback function. *)
Abbreviation Callback := string.

(** What a callback receives after a pass (the wall-clock time left out). *)
Record CallbackCall : Type := {
  call_callback : Callback;
  call_pass : string;
  call_dag : DAGCircuit;
  call_property_set : PropertySet;
  call_count : nat
}.

(** The state of one run: the graph, the property set, the number of passes
    executed so far and the callback invocations so far. *)
Record RunState : Type := {
  graph : DAGCircuit;
  pset : PropertySet;
  count : nat;
  calls : list CallbackCall
}.

(** Modelled from the spec: one pass, then the callback if there is one,
    which receives the pass, the graph after it, the property set and the
    running count. *)
Definition run_pass (callback : option Callback) (p : BasePass) (st : RunState)
  : result RunState :=
  let! r := pass_run p (graph st) (pset st) in
  Return {| graph := r.1; pset := r.2; count := S (count st);
            calls := calls st ++
              match callback with
              | Some cb => [{| call_callback := cb; call_pass := pass_name p;
                               call_dag := r.1; call_property_set := r.2;
                               call_count := count st |}]
              | None => []
              end |}.

(** Modelled from the spec: the bounded repeat-while of [DoWhile].  Run the
    sequence, then look at the predicate on the property set the sequence
    left; go on until it is false or the ceiling is reached, which is not an
    error.  The second component counts the repetitions performed. *)
Fixpoint do_while_loop (body : RunState → result RunState)
    (predicate : Predicate) (max_iterations : nat) (st : RunState)
  : result (RunState * nat) :=
  match max_iterations with
  | O => Return (st, O)
  | S n =>
      let! st' := body st in
      if predicate (pset st') then
        let! r := do_while_loop body predicate n st' in
        Return (r.1, S r.2)
      else Return (st', 1%nat)
  end.

(** Modelled from the spec: the tree-walking evaluator of the controllers.
    A sequence runs in list order and a failing pass aborts it; a
    conditional whose predicate is false passes the state through. *)
Fixpoint run_controller (callback : option Callback) (fc : FlowController)
    (st : RunState) {struct fc} : result RunState :=
  let run_element (st : RunState) (e : Element) : result RunState :=
    match e with
    | inl p => run_pass callback p st
    | inr fc' => run_controller callback fc' st
    end in
  match fc with
  | Sequence passes => foldM run_element st passes
  | Conditional predicate passes =>
      if predicate (pset st) then foldM run_element st passes else Return st
  | DoWhile predicate passes max_iterations =>
      fst <$> do_while_loop (λ st, foldM run_element st passes)
                predicate max_iterations st
  end.

(** The sequence a controller wraps, as a function on run states. *)
Definition run_elements (callback : option Callback) (passes : list Element)
    (st : RunState) : result RunState :=
  foldM (λ st e, match e with
                 | inl p => run_pass callback p st
                 | inr fc => run_controller callback fc st
                 end) st passes.

Record RunningPassManager : Type := {
  rpm_max_iteration : Z;
  working_list : list FlowController
}.

(** [RunningPassManager(max_iteration)] *)
Definition new_RunningPassManager (max_iteration : Z) : RunningPassManager :=
  {| rpm_max_iteration := max_iteration; working_list := [] |}.

(** Modelled from the spec: the controller of one pass set.  A
    repeat-while predicate comes first, else a plain condition, else the
    plain sequence. *)
Definition controller_of (max_iteration : Z) (passes : list Element)
    (flow_controllers : list (string * Predicate)) : FlowController :=
  match dict_get flow_controllers "do_while" with
  | Some predicate => DoWhile predicate passes (Z.to_nat max_iteration)
  | None =>
      match dict_get flow_controllers "condition" with
      | Some predicate => Conditional predicate passes
      | None => Sequence passes
      end
  end.

(** Modelled from the spec:
    [running_passmanager.append(passes, **flow_controllers)]. *)
Definition RunningPassManager_append (rpm : RunningPassManager)
    (passes : list Element) (flow_controllers : list (string * Predicate))
  : RunningPassManager :=
  {| rpm_max_iteration := rpm_max_iteration rpm;
     working_list := working_list rpm ++
       [controller_of (rpm_max_iteration rpm) passes flow_controllers] |}.

(** [circuit.name = output_name] *)
Definition rename (circuit : DAGCircuit) (output_name : string) : DAGCircuit :=
  {| name := Some output_name; metadata := metadata circuit;
     calibrations := calibrations circuit;
     qregs := qregs circuit; cregs := cregs circuit;
     qubits := qubits circuit; clbits := clbits circuit;
     op_nodes := op_nodes circuit; duration := duration circuit;
     unit := unit circuit |}.

(** Modelled from the spec:
    [running_passmanager.run(circuit, output_name, callback)].  The run
    starts from an empty property set and executes the pass sets in append
    order; the value is the final state, its graph renamed when an output
    name is given. *)
Definition RunningPassManager_run (rpm : RunningPassManager)
    (circuit : DAGCircuit) (output_name : option string)
    (callback : option Callback) : result RunState :=
  let! st := foldM (λ st fc, run_controller callback fc st)
               {| graph := circuit; pset := ∅; count := O; calls := [] |}
               (working_list rpm) in
  Return {| graph := match output_name with
                     | Some n => rename (graph st) n
                     | None => graph st
                     end;
            pset := pset st; count := count st; calls := calls st |}.

End Engine.
Import Engine.

(* ===================================================================== *)
(** ** [PassManager] *)
(* ===================================================================== *)

Module PassManager.

(** What a caller may hand over as [passes]: a pass, a flow controller, or a
    list of objects, some of which may be neither. *)
Inductive PyObject : Type :=
| ObjPass (p : BasePass)
| ObjFlow (fc : FlowController)
| ObjOther (class : string).

Inductive PassesArg : Type :=
| ArgPass (p : BasePass)
| ArgFlow (fc : FlowController)
| ArgList (l : list PyObject).

(** The value under ["passes"] of a pass set: a checked list, or the flow
    controller that was appended as such. *)
Inductive Passes : Type :=
| PassList (l : list Element)
| PassFlow (fc : FlowController).

(** [{"passes": passes, "flow_controllers": flow_controller_conditions}] *)
Record PassSet : Type := {
  passes : Passes;
  flow_controllers : list (string * Predicate)
}.

Record t : Type := {
  _pass_sets : list PassSet;
  max_iteration : Z;
  property_set : option PropertySet
}.

(** [PassManager._normalize_passes(passes)] *)
Definition _normalize_passes (passes : PassesArg) : result Passes :=
  match passes with
  | ArgFlow fc => Return (PassFlow fc)
  | ArgPass p => Return (PassList [inl p])
  | ArgList l =>
      PassList <$>
        forM (λ pass_,
                match pass_ with
                | ObjFlow fc => Return (inr fc)
                | ObjPass p => Return (inl p)
                | ObjOther class =>
                    Raise (TranspilerError
                             (class +:+ " is not a BasePass or FlowController instance "))
                end) l
  end.

(** [if max_iteration: self.max_iteration = max_iteration] *)
Definition set_max_iteration (self : t) (max_iteration : option Z) : t :=
  match max_iteration with
  | Some n =>
      if bool_decide (n = 0) then self
      else {| _pass_sets := _pass_sets self; max_iteration := n;
              property_set := property_set self |}
  | None => self
  end.

Definition with_pass_sets (self : t) (pass_sets : list PassSet) : t :=
  {| _pass_sets := pass_sets; max_iteration := max_iteration self;
     property_set := property_set self |}.

(** A method that updates [self] in place gives [self] as the call leaves
    it, and [Return ()] or the exception. *)

(** [self.append(passes, max_iteration, **flow_controller_conditions)] *)
Definition append (self : t) (passes : PassesArg) (max_iteration : option Z)
    (flow_controller_conditions : list (string * Predicate))
  : t * result () :=
  let self := set_max_iteration self max_iteration in
  match _normalize_passes passes with
  | Return passes =>
      (with_pass_sets self
         (_pass_sets self ++
            [{| passes := passes;
                flow_controllers := flow_controller_conditions |}]),
       Return ())
  | Raise e => (self, Raise e)
  end.

(** [PassManager(passes, max_iteration)]; the default of [max_iteration] is
    1000. *)
Definition __init__ (passes : option PassesArg) (max_iteration : option Z)
  : result t :=
  let max_iteration := default 1000 max_iteration in
  let self := {| _pass_sets := []; max_iteration := max_iteration;
                 property_set := None |} in
  match passes with
  | Some passes =>
      let r := append self passes None [] in
      let! appended := r.2 in Return r.1
  | None => Return self
  end.

(** The position a Python index denotes in a list of length [n], if any. *)
Definition list_index (n : nat) (index : Z) : option nat :=
  if bool_decide (0 ≤ index < Z.of_nat n) then Some (Z.to_nat index)
  else if bool_decide (- Z.of_nat n ≤ index < 0)
       then Some (Z.to_nat (Z.of_nat n + index))
       else None.

(** [self.replace(index, passes, max_iteration, **flow_controller_conditions)] *)
Definition replace (self : t) (index : Z) (passes : PassesArg)
    (max_iteration : option Z)
    (flow_controller_conditions : list (string * Predicate))
  : t * result () :=
  let self := set_max_iteration self max_iteration in
  match _normalize_passes passes with
  | Return passes =>
      match list_index (length (_pass_sets self)) index with
      | Some i =>
          (with_pass_sets self
             (<[i := {| passes := passes;
                        flow_controllers := flow_controller_conditions |}]>
                (_pass_sets self)),
           Return ())
      | None =>
          (self,
           Raise (TranspilerError
                    ("Index to replace " +:+ str_Z index
                     +:+ " does not exists")))
      end
  | Raise e => (self, Raise e)
  end.

(** [self.remove(index)] *)
Definition remove (self : t) (index : Z) : t * result () :=
  match list_index (length (_pass_sets self)) index with
  | Some i => (with_pass_sets self (delete i (_pass_sets self)), Return ())
  | None =>
      (self,
       Raise (TranspilerError
                ("Index to replace " +:+ str_Z index +:+ " does not exists")))
  end.

(** [self[index] = item] *)
Definition __setitem__ (self : t) (index : Z) (item : PassesArg)
  : t * result () :=
  replace self index item None [].

(** [len(self)] *)
Definition __len__ (self : t) : nat := length (_pass_sets self).

(** The right operand of [+]: another manager (its pass sets are all that
    is read), or something to append. *)
Inductive Operand : Type :=
| OtherManager (other : t)
| OtherPasses (other : PassesArg).

(** [str(self.__class__)] for a plain manager. *)
Definition class_PassManager : string :=
  "<class 'qiskit.transpiler.passmanager.PassManager'>".

(** [str(other.__class__)] for what is handed over as passes.  A pass or a
    flow controller is never refused, so only the class of a list is ever
    printed. *)
Definition class_of (other : PassesArg) : string :=
  match other with
  | ArgList _ => "<class 'list'>"
  | ArgPass p => "<class '" +:+ pass_name p +:+ "'>"
  | ArgFlow _ => "<class 'qiskit.transpiler.runningpassmanager.FlowController'>"
  end.

(** [f"unsupported operand type + for {self.__class__} and
    {other.__class__}"] *)
Definition unsupported_operand (other : PassesArg) : string :=
  "unsupported operand type + for " +:+ class_PassManager +:+ " and "
  +:+ class_of other.

(** [self + other] *)
Definition __add__ (self : t) (other : Operand) : result t :=
  let new_passmanager :=
    {| _pass_sets := []; max_iteration := max_iteration self;
       property_set := None |} in
  match other with
  | OtherManager other =>
      Return (with_pass_sets new_passmanager
                (_pass_sets self ++ _pass_sets other))
  | OtherPasses other =>
      let new_passmanager :=
        with_pass_sets new_passmanager
          (_pass_sets new_passmanager ++ _pass_sets self) in
      match append new_passmanager other None [] with
      | (new_passmanager, Return _) => Return new_passmanager
      | (_, Raise (TranspilerError _)) =>
          Raise (TypeError (unsupported_operand other))
      | (_, Raise e) => Raise e
      end
  end.

(** [running_passmanager.append(pass_set["passes"], ...)]: a flow
    controller appended as such is the single element of its set. *)
Definition elements (p : Passes) : list Element :=
  match p with
  | PassList l => l
  | PassFlow fc => [inr fc]
  end.

(** [self._create_running_passmanager()] *)
Definition _create_running_passmanager (self : t) : RunningPassManager :=
  fold_left
    (λ (running_passmanager : RunningPassManager) (pass_set : PassSet),
       RunningPassManager_append running_passmanager
         (elements (passes pass_set)) (flow_controllers pass_set))
    (_pass_sets self) (new_RunningPassManager (max_iteration self)).

(** The argument and the value of [run]: one circuit or a list. *)
Inductive Circuits : Type :=
| Single (circuit : DAGCircuit)
| Several (circuits : list DAGCircuit).

(** What a call of [run] does besides returning: the running pass managers
    it creates, the circuits it feeds them, and [dill.dumps(self)]. *)
Inductive Event : Type :=
| Created (running_passmanager : RunningPassManager)
| Fed (circuit : DAGCircuit) (output_name : option string)
    (callback : option Callback)
| Pickled (pass_sets : list PassSet) (max_iteration : Z).

(** The outcome of a method that may update [self] and leaves a trace. *)
Record Outcome (A : Type) : Type := {
  self_after : t;
  trace : list Event;
  returned : result A
}.
Arguments self_after {A} _.
Arguments trace {A} _.
Arguments returned {A} _.

(** [self._run_single_circuit(circuit, output_name, callback)] *)
Definition _run_single_circuit (self : t) (circuit : DAGCircuit)
    (output_name : option string) (callback : option Callback)
  : Outcome DAGCircuit :=
  let running_passmanager := _create_running_passmanager self in
  let events := [Created running_passmanager; Fed circuit output_name callback] in
  match RunningPassManager_run running_passmanager circuit output_name callback with
  | Return st =>
      {| self_after := {| _pass_sets := _pass_sets self;
                          max_iteration := max_iteration self;
                          property_set := Some (pset st) |};
         trace := events; returned := Return (graph st) |}
  | Raise e => {| self_after := self; trace := events; returned := Raise e |}
  end.

(** [PassManager._in_parallel(circuit, pm_dill)] *)
Definition _in_parallel (circuit : DAGCircuit) (pm_dill : t)
  : list Event * result DAGCircuit :=
  let running_passmanager := _create_running_passmanager pm_dill in
  ([Created running_passmanager; Fed circuit None None],
   graph <$> RunningPassManager_run running_passmanager circuit None None).

(** Modelled from the spec: [parallel_map] of [qiskit/tools/parallel.py] is
    not part of the sources at hand.  Every value is handed to the task on
    its own and the results are collected in the order of the values; the
    first exception is the one of the call. *)
Fixpoint parallel_map (task : DAGCircuit → t → list Event * result DAGCircuit)
    (values : list DAGCircuit) (pm_dill : t)
  : list Event * result (list DAGCircuit) :=
  match values with
  | [] => ([], Return [])
  | value :: values' =>
      let r := task value pm_dill in
      match r.2 with
      | Return circuit =>
          let rest := parallel_map task values' pm_dill in
          (r.1 ++ rest.1, cons circuit <$> rest.2)
      | Raise e => (r.1, Raise e)
      end
  end.

(** [self._run_several_circuits(circuits, output_name, callback)]: the name
    and the callback are deleted on entry. *)
Definition _run_several_circuits (self : t) (circuits : list DAGCircuit)
    (output_name : option string) (callback : option Callback)
  : Outcome (list DAGCircuit) :=
  let r := parallel_map _in_parallel circuits self in
  {| self_after := self;
     trace := Pickled (_pass_sets self) (max_iteration self) :: r.1;
     returned := r.2 |}.

(** [self.run(circuits, output_name, callback)] *)
Definition run (self : t) (circuits : Circuits) (output_name : option string)
    (callback : option Callback) : Outcome Circuits :=
  if bool_decide (_pass_sets self = []) && bool_decide (output_name = None)
     && bool_decide (callback = None)
  then {| self_after := self; trace := []; returned := Return circuits |}
  else
    match circuits with
    | Single circuit =>
        let r := _run_single_circuit self circuit output_name callback in
        {| self_after := self_after r; trace := trace r;
           returned := Single <$> returned r |}
    | Several [circuit] =>
        let r := _run_single_circuit self circuit output_name callback in
        {| self_after := self_after r; trace := trace r;
           returned := Single <$> returned r |}
    | Several circuits =>
        let r := _run_several_circuits self circuits output_name callback in
        {| self_after := self_after r; trace := trace r;
           returned := Several <$> returned r |}
    end.


(** The subscript of [self[index]]: an int, or a slice [start:stop] whose
    bounds may be left out (slices with a step are not covered). *)
Inductive Index : Type :=
| IndexInt (i : Z)
| IndexSlice (start stop : option Z).

(** The position a slice bound denotes in a list of length [n]: a negative
    bound counts from the end, and every bound is clamped to [0, n]. *)
Definition slice_bound (n : nat) (bound : option Z) (default : nat) : nat :=
  match bound with
  | None => default
  | Some z =>
      if bool_decide (z < 0) then Z.to_nat (Z.max (Z.of_nat n + z) 0)
      else Z.to_nat (Z.min z (Z.of_nat n))
  end.

(** [l[start:stop]] *)
Definition list_slice {A : Type} (l : list A) (start stop : option Z)
  : list A :=
  let lo := slice_bound (length l) start O in
  let hi := slice_bound (length l) stop (length l) in
  take (hi - lo) (drop lo l).

(** The value of [self[index]]: a manager, or the [IndexError] of the list
    subscript, which [__getitem__] does not catch. *)
Inductive Subscript : Type :=
| Item (new_passmanager : t)
| RaiseIndexError.

(** [self[index]] *)
Definition __getitem__ (self : t) (index : Index) : Subscript :=
  let new_passmanager (pass_sets : list PassSet) :=
    {| _pass_sets := pass_sets; max_iteration := max_iteration self;
       property_set := None |} in
  match index with
  | IndexInt i =>
      match list_index (length (_pass_sets self)) i with
      | Some pos =>
          match _pass_sets self !! pos with
          | Some pass_set => Item (new_passmanager [pass_set])
          | None => RaiseIndexError
          end
      | None => RaiseIndexError
      end
  | IndexSlice start stop =>
      Item (new_passmanager (list_slice (_pass_sets self) start stop))
  end.

(** The value under ["flow_controllers"] of an item of [passes()]: the set
    of the keywords, or the empty dictionary when there is none. *)
Inductive FlowControllerKeys : Type :=
| KeySet (keys : gset string)
| EmptyDict.

(** An item of the list [passes()] returns. *)
Record PassesItem : Type := {
  item_passes : Passes;
  item_flow_controllers : FlowControllerKeys
}.

(** One turn of the loop of [passes()]. *)
Definition passes_item (pass_set : PassSet) : PassesItem :=
  {| item_passes := passes pass_set;
     item_flow_controllers :=
       match flow_controllers pass_set with
       | [] => EmptyDict
       | _ :: _ => KeySet (list_to_set (flow_controllers pass_set).*1)
       end |}.

(** [self.passes()] (the name [passes] is the field of a pass set here). *)
Definition passes_ (self : t) : list PassesItem :=
  fold_left (λ (ret : list PassesItem) (pass_set : PassSet),
               ret ++ [passes_item pass_set])
    (_pass_sets self) [].

End PassManager.

(* ===================================================================== *)
(** ** [StagedPassManager] *)
(* ===================================================================== *)

Module StagedPassManager.

(** The instance: the declared stages, the slot attributes set so far (a
    slot holds a pass manager or [None]), and the inherited fields.  Stage
    names are taken to differ from the names of the attributes the
    instance and its classes have ([stages], [_pass_sets],
    [max_iteration], [property_set], the methods); [plain_stage] below
    says which names these are. *)
Record t : Type := {
  stages : list string;
  slots : gmap string (option PassManager.t);
  base : PassManager.t
}.

Definition default_stages : list string :=
  ["init"; "layout"; "routing"; "translation"; "optimization"; "scheduling"].

(** A character [invalid_stage_regex] matches, for names in ASCII: white
    space or one of [+ - * / \ % < > @ ! ~ ^ & : [ ] { } ( )]. *)
Definition invalid_char (c : ascii) : bool :=
  let n := nat_of_ascii c in
  bool_decide (9 ≤ n ≤ 13)%nat || bool_decide (28 ≤ n ≤ 32)%nat
  || bool_decide (c ∈ String.list_ascii_of_string "+-*/\%<>@!~^&:[]{}()").

(** [self.invalid_stage_regex.search(stage) is not None] *)
Definition invalid_stage (stage : string) : bool :=
  existsb invalid_char (String.list_ascii_of_string stage).

(** [getattr(self, attr, None)] for a slot attribute. *)
Definition getattr (self : t) (attr : string) : option PassManager.t :=
  default None (slots self !! attr).

(** [attr[n:]] *)
Definition string_from (n : nat) (attr : string) : string :=
  String.substring n (String.length attr - n) attr.

(** The three [extend]s of one stage in [_update_passmanager]. *)
Definition extend_stage (self : t) (pass_sets : list PassManager.PassSet)
    (stage : string) : list PassManager.PassSet :=
  let pass_sets :=
    match getattr self ("pre_" +:+ stage) with
    | Some pre_stage_pm => pass_sets ++ PassManager._pass_sets pre_stage_pm
    | None => pass_sets
    end in
  let pass_sets :=
    match getattr self stage with
    | Some stage_pm => pass_sets ++ PassManager._pass_sets stage_pm
    | None => pass_sets
    end in
  match getattr self ("post_" +:+ stage) with
  | Some post_stage_pm => pass_sets ++ PassManager._pass_sets post_stage_pm
  | None => pass_sets
  end.

(** [self._update_passmanager()] *)
Definition _update_passmanager (self : t) : t :=
  {| stages := stages self; slots := slots self;
     base := PassManager.with_pass_sets (base self)
               (fold_left (extend_stage self) (stages self) []) |}.

(** [self.__setattr__(attr, value)] for a slot value. *)
Definition __setattr__ (self : t) (attr : string)
    (value : option PassManager.t) : t :=
  let self := {| stages := stages self; slots := <[attr := value]> (slots self);
                 base := base self |} in
  if bool_decide (attr ∈ stages self)
     || (String.prefix "pre_" attr
         && bool_decide (string_from 4 attr ∉ stages self))
     || (String.prefix "post_" attr
         && bool_decide (string_from 5 attr ∉ stages self))
  then _update_passmanager self
  else self.

(** [f"The following stage names are not valid: ..."] *)
Definition invalid_stages_message (invalid_stages : list string) : string :=
  match invalid_stages with
  | [] => ""
  | first :: others =>
      fold_left (λ (msg : string) (invalid_stage : string),
                   msg +:+ ", " +:+ invalid_stage)
        others ("The following stage names are not valid: " +:+ first)
  end.

(** The test on a keyword of [__init__]. *)
Definition not_a_slot (self : t) (stage : string) : bool :=
  bool_decide (stage ∉ stages self)
  && negb (String.prefix "pre_" stage
           && bool_decide (string_from 4 stage ∈ stages self))
  && negb (String.prefix "post_" stage
           && bool_decide (string_from 5 stage ∈ stages self)).

(** [StagedPassManager(stages, **kwargs)], for stage names that are
    [plain_stage] (see there). *)
Definition __init__ (stages : option (list string))
    (kwargs : list (string * option PassManager.t)) : result t :=
  let! stages :=
    match stages with
    | None => Return default_stages
    | Some stages =>
        match filter (λ stage, invalid_stage stage = true) stages with
        | [] => Return stages
        | invalid_stages =>
            Raise (ValueError (invalid_stages_message invalid_stages))
        end
    end in
  let! base := PassManager.__init__ None None in
  let self := {| stages := stages; slots := ∅; base := base |} in
  let self :=
    fold_left (λ (self : t) (stage : string),
                 let self := __setattr__ self ("pre_" +:+ stage) None in
                 let self := __setattr__ self stage None in
                 __setattr__ self ("post_" +:+ stage) None)
      stages self in
  let! self :=
    foldM (λ (self : t) (kw : string * option PassManager.t),
             if not_a_slot self kw.1
             then Raise (AttributeError (kw.1 +:+ " is not a valid stage."))
             else Return (__setattr__ self kw.1 kw.2))
      self kwargs in
  Return (_update_passmanager self).

(** The overriding methods below only [raise NotImplementedError]. *)
Definition append (self : t) (passes : PassManager.PassesArg)
    (max_iteration : option Z)
    (flow_controller_conditions : list (string * Predicate))
  : t * result () :=
  (self, Raise NotImplementedError).

Definition replace (self : t) (index : Z) (passes : PassManager.PassesArg)
    (max_iteration : option Z)
    (flow_controller_conditions : list (string * Predicate))
  : t * result () :=
  (self, Raise NotImplementedError).

Definition remove (self : t) (index : Z) : t * result () :=
  (self, Raise NotImplementedError).

Definition __setitem__ (self : t) (index : Z) (item : PassManager.PassesArg)
  : t * result () :=
  (self, Raise NotImplementedError).

Definition __add__ (self : t) (other : PassManager.Operand)
  : result PassManager.t :=
  Raise NotImplementedError.

(** [len(self)] *)
Definition __len__ (self : t) : t * nat :=
  let self := _update_passmanager self in
  (self, PassManager.__len__ (base self)).

(** [self._create_running_passmanager()] *)
Definition _create_running_passmanager (self : t) : t * RunningPassManager :=
  let self := _update_passmanager self in
  (self, PassManager._create_running_passmanager (base self)).

(** [self.run(circuits, output_name, callback)], for stage names that are
    [plain_stage]: the inherited assignment to [self.property_set] then
    passes [__setattr__] without re-flattening. *)
Definition run (self : t) (circuits : PassManager.Circuits)
    (output_name : option string) (callback : option Callback)
  : t * list PassManager.Event * result PassManager.Circuits :=
  let self := _update_passmanager self in
  let r := PassManager.run (base self) circuits output_name callback in
  ({| stages := stages self; slots := slots self;
      base := PassManager.self_after r |},
   PassManager.trace r, PassManager.returned r).

(** The flattening, in the words of the spec: stages in declared order, and
    for each stage the pass sets of its pre-stage, stage and post-stage
    managers, the empty slots contributing nothing. *)
Definition slot_pass_sets (self : t) (attr : string)
  : list PassManager.PassSet :=
  match getattr self attr with
  | Some pm => PassManager._pass_sets pm
  | None => []
  end.

Definition flattening (self : t) : list PassManager.PassSet :=
  concat (map (λ stage, slot_pass_sets self ("pre_" +:+ stage)
                        ++ slot_pass_sets self stage
                        ++ slot_pass_sets self ("post_" +:+ stage))
              (stages self)).

(** [self[index]]: the class defines [__getitem] (sic), which Python stores
    under the mangled name [_StagedPassManager__getitem]; a subscript goes
    to the inherited [PassManager.__getitem__], which reads [_pass_sets] as
    they are. *)
Definition __getitem__ (self : t) (index : PassManager.Index)
  : PassManager.Subscript :=
  PassManager.__getitem__ (base self) index.

(** The method [__getitem] of the class, which no subscript reaches. *)
Definition _StagedPassManager__getitem (self : t) (index : PassManager.Index)
  : t * PassManager.Subscript :=
  let self := _update_passmanager self in
  (self, PassManager.__getitem__ (base self) index).

(** [self.passes()] *)
Definition passes_ (self : t) : t * list PassManager.PassesItem :=
  let self := _update_passmanager self in
  (self, PassManager.passes_ (base self)).

(** The public names that an instance or its classes already have; every
    other attribute of the instance, of [PassManager], of
    [StagedPassManager] and of [object] starts with an underscore. *)
Definition public_attributes : list string :=
  ["stages"; "max_iteration"; "property_set"; "append"; "replace"; "remove";
   "run"; "draw"; "passes"; "invalid_stage_regex"].

(** A stage name for which the record above stands for the instance: it is
    in ASCII and it is not the name of an attribute the instance or its
    classes have, so that the slot of the stage is an attribute of its
    own.  (For another name [setattr] and [getattr] of the code reach that
    attribute, which the record does not follow.) *)
Definition plain_stage (stage : string) : bool :=
  forallb (λ c, bool_decide (nat_of_ascii c < 128)%nat)
    (String.list_ascii_of_string stage)
  && negb (String.prefix "_" stage)
  && bool_decide (stage ∉ public_attributes).

(** A keyword that [__init__] accepts for the declared [stages]: a stage,
    or [pre_] or [post_] followed by a stage. *)
Definition slot_name (stages : list string) (attr : string) : bool :=
  bool_decide (attr ∈ stages)
  || (String.prefix "pre_" attr && bool_decide (string_from 4 attr ∈ stages))
  || (String.prefix "post_" attr && bool_decide (string_from 5 attr ∈ stages)).

End StagedPassManager.

(* ===================================================================== *)
(** ** Sample inputs *)
(* ===================================================================== *)

Module Samples.

Definition gate (n : string) (d : Duration) : Instruction :=
  {| op_class := Gate; op_name := n; op_params := []; op_duration := d;
     op_unit := VStr "dt"; condition_bits := [] |}.

Definition on_q0 (op : Instruction) : DAGOpNode :=
  {| node_op := op; qargs := [Qubit 0]; cargs := [] |}.

(** A physical graph over one qubit with the given nodes. *)
Definition one_track (nodes : list DAGOpNode) : DAGCircuit :=
  {| name := Some "circuit"; metadata := Some [("shots", "1")];
     calibrations := ∅;
     qregs := [("q", [Qubit 0])]; cregs := [];
     qubits := [Qubit 0]; clbits := [];
     op_nodes := nodes; duration := None; unit := VStr "dt" |}.

Definition dt : gmap string value := {[ "time_unit" := VStr "dt" ]}.

(** The chain A, B, C with durations 10, 20, 10. *)
Definition chain_ABC : DAGCircuit :=
  one_track [on_q0 (gate "A" (DurValue 10)); on_q0 (gate "B" (DurValue 20));
             on_q0 (gate "C" (DurValue 10))].

(** One node whose duration is a parameter expression. *)
Definition parameterized : DAGCircuit :=
  one_track [on_q0 (gate "rx" (DurParameterExpression "t"))].

(** A node with a duration, then one without and without calibration. *)
Definition resolved_then_unset : DAGCircuit :=
  one_track [on_q0 (gate "x" (DurValue 10)); on_q0 (gate "y" DurNone)].

(** A pass that changes nothing. *)
Definition identity_pass : BasePass :=
  {| pass_name := "Identity"; pass_run := λ dag props, Return (dag, props) |}.

(** What [identity_pass] does to a run state without callback. *)
Definition counted (st : RunState) : RunState :=
  {| graph := graph st; pset := pset st; count := S (count st);
     calls := calls st ++ [] |}.

Definition one_pass_set : PassManager.PassSet :=
  {| PassManager.passes := PassManager.PassList [inl identity_pass];
     PassManager.flow_controllers := [] |}.

Definition one_set_manager : PassManager.t :=
  {| PassManager._pass_sets := [one_pass_set];
     PassManager.max_iteration := 1000;
     PassManager.property_set := None |}.

Definition empty_manager : PassManager.t :=
  {| PassManager._pass_sets := []; PassManager.max_iteration := 1000;
     PassManager.property_set := None |}.

(** [StagedPassManager()] *)
Definition default_staged : StagedPassManager.t :=
  {| StagedPassManager.stages := StagedPassManager.default_stages;
     StagedPassManager.slots :=
       foldr (λ stage slots,
                <["pre_" +:+ stage := None]>
                  (<[stage := None]> (<["post_" +:+ stage := None]> slots)))
         ∅ StagedPassManager.default_stages;
     StagedPassManager.base := empty_manager |}.

(** The one-qubit graph without operations, scheduled. *)
Definition scheduled_empty_track : DAGCircuit :=
  {| name := Some "circuit"; metadata := Some [("shots", "1")];
     calibrations := ∅;
     qregs := [("q", [Qubit 0])]; cregs := [];
     qubits := [Qubit 0]; clbits := [];
     op_nodes := []; duration := Some 0; unit := VStr "dt" |}.

(** The state a run starts from on the empty one-qubit graph. *)
Definition initial_state : RunState :=
  {| graph := one_track []; pset := ∅; count := O; calls := [] |}.


(** A two-qubit operation without duration on the third and the first
    qubit of a register of three. *)
Definition cx_2_0 : DAGOpNode :=
  {| node_op := gate "cx" DurNone; qargs := [Qubit 12; Qubit 10]; cargs := [] |}.

Definition three_qubits (nodes : list DAGOpNode) : DAGCircuit :=
  {| name := None; metadata := None;
     calibrations := {[ "cx" := {[ ([0%nat; 2%nat], []) := DurValue 300 ]} ]};
     qregs := [("q", [Qubit 10; Qubit 11; Qubit 12])]; cregs := [];
     qubits := [Qubit 10; Qubit 11; Qubit 12]; clbits := [];
     op_nodes := nodes; duration := None; unit := VStr "dt" |}.

(** A second pass set, under a condition. *)
Definition conditional_pass_set : PassManager.PassSet :=
  {| PassManager.passes := PassManager.PassList [inl identity_pass];
     PassManager.flow_controllers := [("condition", λ _, true)] |}.

Definition two_set_manager : PassManager.t :=
  {| PassManager._pass_sets := [one_pass_set; conditional_pass_set];
     PassManager.max_iteration := 1000;
     PassManager.property_set := None |}.

(** [StagedPassManager(["one", "two"], two=..., pre_one=...)] *)
Definition staged_keywords : list (string * option PassManager.t) :=
  [("two", Some two_set_manager); ("pre_one", Some one_set_manager)].

Definition staged_one_two : StagedPassManager.t :=
  {| StagedPassManager.stages := ["one"; "two"];
     StagedPassManager.slots :=
       <["pre_one" := Some one_set_manager]>
         (<["two" := Some two_set_manager]>
            (foldr (λ stage slots,
                      <["pre_" +:+ stage := None]>
                        (<[stage := None]> (<["post_" +:+ stage := None]> slots)))
               ∅ ["one"; "two"]));
     StagedPassManager.base :=
       {| PassManager._pass_sets :=
            [one_pass_set; one_pass_set; conditional_pass_set];
          PassManager.max_iteration := 1000;
          PassManager.property_set := None |} |}.

(** A physical graph over one qubit without any node, and one without any
    bit. *)
Definition empty_track : DAGCircuit := one_track [].

Definition no_bits : DAGCircuit :=
  {| name := None; metadata := None; calibrations := ∅;
     qregs := [("q", [])]; cregs := [];
     qubits := []; clbits := [];
     op_nodes := []; duration := None; unit := VStr "dt" |}.

End Samples.

(* ===================================================================== *)
(** ** Facts about results and dictionaries *)
(* ===================================================================== *)

Lemma bind_Return {A B : Type} (a : A) (k : A → result B) :
  bind (Return a) k = k a.
Proof. reflexivity. Qed.

Lemma bind_Raise {A B : Type} (e : exn) (k : A → result B) :
  bind (Raise e) k = Raise e.
Proof. reflexivity. Qed.

Lemma foldM_cons_Raise {A B : Type} (f : A → B → result A) acc x l e :
  f acc x = Raise e → foldM f acc (x :: l) = Raise e.
Proof. intros H. simpl. by rewrite H. Qed.

Lemma dict_set_values {K : Type} `{EqDecision K} (d : list (K * Z)) k v :
  Forall (λ item, item.2 = v) d → Forall (λ item, item.2 = v) (dict_set d k v).
Proof.
  induction d as [|[k' v'] d IH]; intros Hd; simpl.
  - by repeat constructor.
  - inversion Hd; subst. case_decide; constructor; auto.
Qed.

Lemma dict_set_not_nil {K V : Type} `{EqDecision K} (d : list (K * V)) k v :
  dict_set d k v ≠ [].
Proof. destruct d as [|[k' v'] d]; simpl; [done | by case_decide]. Qed.

Lemma dict_fromkeys_values {K : Type} `{EqDecision K} (keys : list K) (v : Z) :
  Forall (λ item, item.2 = v) (dict_fromkeys keys v).
Proof.
  unfold dict_fromkeys.
  assert (G : ∀ d, Forall (λ item : K * Z, item.2 = v) d →
                   Forall (λ item, item.2 = v)
                     (fold_left (λ d k, dict_set d k v) keys d)).
  { induction keys as [|k keys IH]; intros d Hd; simpl; [done |].
    apply IH. by apply dict_set_values. }
  apply G. constructor.
Qed.

Lemma dict_fromkeys_not_nil {K V : Type} `{EqDecision K} (keys : list K) (v : V) :
  keys ≠ [] → dict_fromkeys keys v ≠ [].
Proof.
  unfold dict_fromkeys.
  assert (G : ∀ (keys : list K) (d : list (K * V)), d ≠ [] →
                fold_left (λ d k, dict_set d k v) keys d ≠ []).
  { clear keys. induction keys as [|k keys IH]; intros d Hd; simpl; [done |].
    apply IH, dict_set_not_nil. }
  destruct keys as [|k keys]; [done |]. intros _. simpl.
  by apply G.
Qed.

Lemma dict_fromkeys_nil {K V : Type} `{EqDecision K} (v : V) :
  dict_fromkeys (K := K) [] v = [].
Proof. reflexivity. Qed.

Lemma max_zeros (l : list Z) :
  l ≠ [] → Forall (λ z, z = 0) l → max l = Return 0.
Proof.
  destruct l as [|z l]; [done |]. intros _ H. inversion H as [|? ? Hz Hl]; subst.
  simpl. f_equal. clear H. induction Hl as [|z l Hz Hl IH]; simpl; [done |].
  subst. exact IH.
Qed.

(* ===================================================================== *)
(** ** Facts about the scheduling passes *)
(* ===================================================================== *)

(** None of the names that [run] loads through [unbound_name] is a local of
    [run], a global of its module or a builtin it uses. *)
Lemma names_never_bound_are_unbound :
  Forall (λ n, n ∉ module_globals ++ run_locals ++ builtins_used)
    names_never_bound.
Proof. apply (bool_decide_unpack _). by vm_compute. Qed.

(** A node never gets past the test of its duration against
    [ParameterExpression]. *)
Lemma asap_schedule_node_exn dag time_unit bit_indices st node :
  asap_schedule_node dag time_unit bit_indices st node =
  match resolve_duration dag bit_indices node with
  | Return _ => Raise (NameError "ParameterExpression")
  | Raise e => Raise e
  end.
Proof.
  unfold asap_schedule_node. by destruct (resolve_duration dag bit_indices node).
Qed.

Lemma alap_schedule_node_exn dag time_unit bit_indices st node :
  alap_schedule_node dag time_unit bit_indices st node =
  match resolve_duration dag bit_indices node with
  | Return _ => Raise (NameError "ParameterExpression")
  | Raise e => Raise e
  end.
Proof.
  unfold alap_schedule_node. by destruct (resolve_duration dag bit_indices node).
Qed.

Lemma asap_schedule_node_raises dag time_unit bit_indices st node :
  ∃ e, asap_schedule_node dag time_unit bit_indices st node = Raise e.
Proof.
  rewrite asap_schedule_node_exn.
  destruct (resolve_duration dag bit_indices node); eauto.
Qed.

Lemma alap_schedule_node_raises dag time_unit bit_indices st node :
  ∃ e, alap_schedule_node dag time_unit bit_indices st node = Raise e.
Proof.
  rewrite alap_schedule_node_exn.
  destruct (resolve_duration dag bit_indices node); eauto.
Qed.

(** The fill loops add nothing when every bit is idle from 0 and the span
    is 0. *)
Lemma pad_back_zeros time_unit idle new_dag :
  Forall (λ item : Bit * Z, item.2 = 0) idle →
  pad_back time_unit 0 idle new_dag = new_dag.
Proof.
  unfold pad_back. intros H. revert new_dag.
  induction H as [|item idle Hz _ IH]; intros new_dag; simpl; [done |].
  rewrite Hz. simpl. apply IH.
Qed.

Lemma pad_front_zeros time_unit idle new_dag :
  Forall (λ item : Bit * Z, item.2 = 0) idle →
  pad_front time_unit 0 idle new_dag = new_dag.
Proof.
  unfold pad_front. intros H. revert new_dag.
  induction H as [|item idle Hz _ IH]; intros new_dag; simpl; [done |].
  rewrite Hz. simpl. apply IH.
Qed.

Lemma idle_table_max (keys : list Bit) :
  keys ≠ [] → max (dict_fromkeys keys 0).*2 = Return 0.
Proof.
  intros Hk. apply max_zeros.
  - intros Hnil. apply fmap_nil_inv in Hnil.
    by apply (dict_fromkeys_not_nil keys 0) in Hk.
  - apply Forall_fmap. apply (dict_fromkeys_values keys 0).
Qed.

(** What the passes do on a graph without operation nodes. *)
Lemma ASAPSchedule_run_no_nodes property_set dag new_dag :
  not_physical dag = false →
  copy_registers dag = Return new_dag →
  op_nodes dag = [] →
  qubits dag ++ clbits dag ≠ [] →
  ASAPSchedule_run property_set dag =
  Return (finish dag new_dag 0 (get_time_unit property_set)).
Proof.
  intros Hphys Hcopy Hnodes Hbits. unfold ASAPSchedule_run.
  rewrite Hphys, Hcopy. unfold topological_op_nodes. rewrite Hnodes. simpl.
  rewrite (idle_table_max _ Hbits). simpl.
  by rewrite pad_back_zeros by apply (dict_fromkeys_values _ 0).
Qed.

Lemma ALAPSchedule_run_no_nodes property_set dag new_dag :
  not_physical dag = false →
  copy_registers dag = Return new_dag →
  op_nodes dag = [] →
  qubits dag ++ clbits dag ≠ [] →
  ALAPSchedule_run property_set dag =
  Return (finish dag new_dag 0 (get_time_unit property_set)).
Proof.
  intros Hphys Hcopy Hnodes Hbits. unfold ALAPSchedule_run.
  rewrite Hphys, Hcopy. unfold topological_op_nodes. rewrite Hnodes. simpl.
  rewrite (idle_table_max _ Hbits). simpl.
  by rewrite pad_front_zeros by apply (dict_fromkeys_values _ 0).
Qed.

(** A run that returns had no operation node to schedule. *)
Lemma ASAPSchedule_run_Return property_set dag out :
  ASAPSchedule_run property_set dag = Return out →
  not_physical dag = false ∧ op_nodes dag = [] ∧
  qubits dag ++ clbits dag ≠ [] ∧
  ∃ new_dag, copy_registers dag = Return new_dag ∧
             out = finish dag new_dag 0 (get_time_unit property_set).
Proof.
  unfold ASAPSchedule_run. destruct (not_physical dag) eqn:Hphys; [done |].
  destruct (copy_registers dag) as [new_dag|e] eqn:Hcopy; [|done].
  unfold topological_op_nodes. destruct (op_nodes dag) as [|node nodes] eqn:Hn.
  - simpl. destruct (decide (qubits dag ++ clbits dag = [])) as [Hb|Hb].
    + rewrite Hb. done.
    + rewrite (idle_table_max _ Hb). simpl.
      rewrite pad_back_zeros by apply (dict_fromkeys_values _ 0).
      intros [= <-]. eauto 10.
  - rewrite bind_Return.
    destruct (asap_schedule_node_raises dag (get_time_unit property_set)
                (dict_enumerate (qubits dag))
                (new_dag, dict_fromkeys (qubits dag ++ clbits dag) 0) node)
      as [e He].
    by rewrite (foldM_cons_Raise _ _ _ _ _ He).
Qed.

Lemma ALAPSchedule_run_Return property_set dag out :
  ALAPSchedule_run property_set dag = Return out →
  not_physical dag = false ∧ op_nodes dag = [] ∧
  qubits dag ++ clbits dag ≠ [] ∧
  ∃ new_dag, copy_registers dag = Return new_dag ∧
             out = finish dag new_dag 0 (get_time_unit property_set).
Proof.
  unfold ALAPSchedule_run. destruct (not_physical dag) eqn:Hphys; [done |].
  destruct (copy_registers dag) as [new_dag|e] eqn:Hcopy; [|done].
  unfold topological_op_nodes.
  destruct (reverse (op_nodes dag)) as [|node nodes] eqn:Hn.
  - apply (f_equal reverse) in Hn. rewrite reverse_involutive in Hn.
    simpl. destruct (decide (qubits dag ++ clbits dag = [])) as [Hb|Hb].
    + rewrite Hb. done.
    + rewrite (idle_table_max _ Hb). simpl.
      rewrite pad_front_zeros by apply (dict_fromkeys_values _ 0).
      intros [= <-]. eauto 10.
  - rewrite bind_Return.
    destruct (alap_schedule_node_raises dag (get_time_unit property_set)
                (dict_enumerate (qubits dag))
                (new_dag, dict_fromkeys (qubits dag ++ clbits dag) 0) node)
      as [e He].
    by rewrite (foldM_cons_Raise _ _ _ _ _ He).
Qed.

(** The registers and bits of the graph [copy_registers] builds. *)
Lemma foldM_add_qreg regs : ∀ d0 d,
  foldM add_qreg d0 regs = Return d →
  qregs d = qregs d0 ++ regs ∧ cregs d = cregs d0 ∧
  qubits d = fold_left (λ (bits : list Bit) (reg : string * list Bit),
                          bits ++ fresh_bits bits reg.2) regs (qubits d0) ∧
  clbits d = clbits d0 ∧ op_nodes d = op_nodes d0.
Proof.
  induction regs as [|reg regs IH]; intros d0 d; simpl.
  - intros [= <-]. by rewrite app_nil_r.
  - unfold add_qreg at 1. case_decide; [done |]. rewrite bind_Return.
    intros Hf. apply IH in Hf. simpl in Hf.
    destruct Hf as (-> & -> & -> & -> & ->). by rewrite <- app_assoc.
Qed.

Lemma foldM_add_creg regs : ∀ d0 d,
  foldM add_creg d0 regs = Return d →
  cregs d = cregs d0 ++ regs ∧ qregs d = qregs d0 ∧
  clbits d = fold_left (λ (bits : list Bit) (reg : string * list Bit),
                          bits ++ fresh_bits bits reg.2) regs (clbits d0) ∧
  qubits d = qubits d0 ∧ op_nodes d = op_nodes d0.
Proof.
  induction regs as [|reg regs IH]; intros d0 d; simpl.
  - intros [= <-]. by rewrite app_nil_r.
  - unfold add_creg at 1. case_decide; [done |]. rewrite bind_Return.
    intros Hf. apply IH in Hf. simpl in Hf.
    destruct Hf as (-> & -> & -> & -> & ->). by rewrite <- app_assoc.
Qed.

Lemma copy_registers_fields dag new_dag :
  copy_registers dag = Return new_dag →
  qregs new_dag = qregs dag ∧ cregs new_dag = cregs dag ∧
  qubits new_dag = declared_bits (qregs dag) ∧
  clbits new_dag = declared_bits (cregs dag) ∧
  op_nodes new_dag = [].
Proof.
  unfold copy_registers.
  destruct (foldM add_qreg new_DAGCircuit (qregs dag)) as [d1|e] eqn:Hq; [|done].
  rewrite bind_Return. intros Hc.
  apply foldM_add_qreg in Hq. apply foldM_add_creg in Hc. simpl in Hq.
  destruct Hq as (Hq1 & Hq2 & Hq3 & Hq4 & Hq5).
  destruct Hc as (-> & -> & -> & -> & ->).
  by rewrite Hq1, Hq2, Hq3, Hq4, Hq5.
Qed.

(** [copy_registers] and [not_physical] read the registers only. *)
Lemma copy_registers_ext dag dag' :
  qregs dag' = qregs dag → cregs dag' = cregs dag →
  copy_registers dag' = copy_registers dag.
Proof. unfold copy_registers. by intros -> ->. Qed.

Lemma not_physical_ext dag dag' :
  qregs dag' = qregs dag → not_physical dag' = not_physical dag.
Proof. unfold not_physical. by intros ->. Qed.

(** A run that returns went through the last lines of [run]. *)
Ltac returns_through_finish :=
  destruct (not_physical _); [done |];
  destruct (copy_registers _) as [?|?]; [|done]; rewrite bind_Return;
  destruct (foldM _ _ _) as [?|?]; [|done]; rewrite bind_Return;
  destruct (max _) as [?|?]; [|done]; rewrite bind_Return;
  intros [= <-]; eauto.

Lemma ASAPSchedule_run_finish property_set dag out :
  ASAPSchedule_run property_set dag = Return out →
  ∃ new_dag circuit_duration,
    out = finish dag new_dag circuit_duration (get_time_unit property_set).
Proof. unfold ASAPSchedule_run. returns_through_finish. Qed.

Lemma ALAPSchedule_run_finish property_set dag out :
  ALAPSchedule_run property_set dag = Return out →
  ∃ new_dag circuit_duration,
    out = finish dag new_dag circuit_duration (get_time_unit property_set).
Proof. unfold ALAPSchedule_run. returns_through_finish. Qed.


(** C2.  On the chain A, B, C of durations 10, 20, 10 on one qubit, in
    unit dt and without conditions, [ASAPSchedule.run] returns no schedule:
    it stops at the first node, where it loads the name
    [ParameterExpression], which nothing binds. *)
Theorem asap_chain_raises_NameError :
  ASAPSchedule_run Samples.dt Samples.chain_ABC
  = Raise (NameError "ParameterExpression").
Proof. reflexivity. Qed.

(** C3.  A node whose duration is a parameter expression makes both passes
    stop with a [NameError] for [ParameterExpression] and not with the
    error that names the operation and its qubits; so does, for the ASAP
    pass, a node without duration and calibration that comes after a node
    with a duration. *)
Theorem parameterized_duration_raises_NameError :
  ASAPSchedule_run Samples.dt Samples.parameterized
  = Raise (NameError "ParameterExpression") ∧
  ALAPSchedule_run Samples.dt Samples.parameterized
  = Raise (NameError "ParameterExpression") ∧
  ASAPSchedule_run Samples.dt Samples.resolved_then_unset
  = Raise (NameError "ParameterExpression").
Proof. repeat split; reflexivity. Qed.

(** What does hold of C3: when the first node a pass visits has no duration
    and no calibration, the pass raises the error that names the operation
    and the indices of its qubits. *)
Lemma unset_duration_message dag bit_indices node indices :
  op_duration (node_op node) = DurNone →
  forM (bit_index bit_indices) (qargs node) = Return indices →
  has_calibration_for dag node indices = false →
  resolve_duration dag bit_indices node =
  Raise (TranspilerError
           ("Duration of " +:+ op_name (node_op node) +:+ " on qubits "
            +:+ str_list_nat indices +:+ " is not found.")).
Proof.
  intros Hd Hi Hc. unfold resolve_duration. rewrite Hd, Hi, bind_Return, Hc.
  rewrite bind_Return. by rewrite Hd.
Qed.

Lemma asap_unset_duration_first dag new_dag property_set node nodes indices :
  not_physical dag = false →
  copy_registers dag = Return new_dag →
  op_nodes dag = node :: nodes →
  op_duration (node_op node) = DurNone →
  forM (bit_index (dict_enumerate (qubits dag))) (qargs node) = Return indices →
  has_calibration_for dag node indices = false →
  ASAPSchedule_run property_set dag =
  Raise (TranspilerError
           ("Duration of " +:+ op_name (node_op node) +:+ " on qubits "
            +:+ str_list_nat indices +:+ " is not found.")).
Proof.
  intros Hphys Hcopy Hnodes Hd Hi Hc. unfold ASAPSchedule_run.
  rewrite Hphys, Hcopy, bind_Return. unfold topological_op_nodes.
  rewrite Hnodes.
  erewrite foldM_cons_Raise; [done |].
  rewrite asap_schedule_node_exn.
  by rewrite (unset_duration_message _ _ _ _ Hd Hi Hc).
Qed.

Lemma alap_unset_duration_last dag new_dag property_set node nodes indices :
  not_physical dag = false →
  copy_registers dag = Return new_dag →
  op_nodes dag = nodes ++ [node] →
  op_duration (node_op node) = DurNone →
  forM (bit_index (dict_enumerate (qubits dag))) (qargs node) = Return indices →
  has_calibration_for dag node indices = false →
  ALAPSchedule_run property_set dag =
  Raise (TranspilerError
           ("Duration of " +:+ op_name (node_op node) +:+ " on qubits "
            +:+ str_list_nat indices +:+ " is not found.")).
Proof.
  intros Hphys Hcopy Hnodes Hd Hi Hc. unfold ALAPSchedule_run.
  rewrite Hphys, Hcopy, bind_Return. unfold topological_op_nodes.
  rewrite Hnodes, reverse_snoc.
  erewrite foldM_cons_Raise; [done |].
  rewrite alap_schedule_node_exn.
  by rewrite (unset_duration_message _ _ _ _ Hd Hi Hc).
Qed.

(** C10.  A graph that either pass returns has the name, the metadata and
    the calibration table of the input graph. *)
Theorem scheduling_copies_name_metadata_calibrations property_set dag out :
  ASAPSchedule_run property_set dag = Return out
  ∨ ALAPSchedule_run property_set dag = Return out →
  name out = name dag ∧ metadata out = metadata dag ∧
  calibrations out = calibrations dag.
Proof.
  intros [H|H].
  - apply ASAPSchedule_run_finish in H as (new_dag & d & ->). done.
  - apply ALAPSchedule_run_finish in H as (new_dag & d & ->). done.
Qed.

Lemma scheduling_copies_name_metadata_calibrations_witness :
  name Samples.scheduled_empty_track = name (Samples.one_track []) ∧
  metadata Samples.scheduled_empty_track = metadata (Samples.one_track []) ∧
  calibrations Samples.scheduled_empty_track = calibrations (Samples.one_track []).
Proof.
  apply (scheduling_copies_name_metadata_calibrations Samples.dt).
  left. reflexivity.
Defined.

(* ===================================================================== *)
(** ** Facts about the flow controllers *)
(* ===================================================================== *)

Lemma run_controller_DoWhile callback predicate passes max_iterations st :
  run_controller callback (DoWhile predicate passes max_iterations) st
  = fst <$> do_while_loop (run_elements callback passes) predicate
              max_iterations st.
Proof. reflexivity. Qed.

Lemma run_controller_Conditional_false callback predicate passes st :
  predicate (pset st) = false →
  run_controller callback (Conditional predicate passes) st = Return st.
Proof. intros H. simpl. by rewrite H. Qed.

(** A loop whose body never fails and whose predicate never fails to hold
    stops at the ceiling, after exactly that many repetitions. *)
Lemma do_while_loop_always_true body f predicate :
  (∀ st, body st = Return (f st)) →
  (∀ props, predicate props = true) →
  ∀ n st, do_while_loop body predicate n st = Return (Nat.iter n f st, n).
Proof.
  intros Hbody Hpred. induction n as [|n IH]; intros st.
  - reflexivity.
  - cbn [do_while_loop]. rewrite Hbody, bind_Return, Hpred, IH, bind_Return.
    cbn [fst snd]. by rewrite <- Nat.iter_succ_r.
Qed.

(** The ceiling bounds the repetitions whatever the predicate says. *)
Lemma do_while_loop_bounded body predicate : ∀ n st st' k,
  do_while_loop body predicate n st = Return (st', k) → (k ≤ n)%nat.
Proof.
  induction n as [|n IH]; intros st st' k; cbn [do_while_loop].
  - intros [= _ <-]. lia.
  - destruct (body st) as [st1|e]; [|done]. rewrite bind_Return.
    destruct (predicate (pset st1)).
    + destruct (do_while_loop body predicate n st1) as [[st2 k2]|e] eqn:Hl;
        [|done].
      rewrite bind_Return. intros [= _ <-]. apply IH in Hl. lia.
    + intros [= _ <-]. lia.
Qed.

(** C4.  A [DoWhile] controller whose predicate holds on every property set
    and whose sequence never fails performs exactly [max_iterations]
    repetitions of the sequence and returns; a manager built without
    [max_iteration] has the ceiling 1000, and that is the ceiling of the
    [DoWhile] controller its running pass manager builds. *)
Theorem do_while_always_true_stops_at_ceiling callback predicate passes
    max_iterations (f : RunState → RunState) st p :
  (∀ props, predicate props = true) →
  (∀ st, run_elements callback passes st = Return (f st)) →
  do_while_loop (run_elements callback passes) predicate max_iterations st
  = Return (Nat.iter max_iterations f st, max_iterations) ∧
  run_controller callback (DoWhile predicate passes max_iterations) st
  = Return (Nat.iter max_iterations f st) ∧
  PassManager.max_iteration <$> PassManager.__init__ None None = Return 1000 ∧
  (let! pm := PassManager.__init__ None None in
   let pm := (PassManager.append pm (PassManager.ArgPass p) None
                [("do_while", predicate)]).1 in
   Return (working_list (PassManager._create_running_passmanager pm)))
  = Return [DoWhile predicate [inl p] 1000].
Proof.
  intros Hpred Hbody. split; [|split; [|split]].
  - by apply do_while_loop_always_true.
  - rewrite run_controller_DoWhile.
    by rewrite (do_while_loop_always_true _ f).
  - reflexivity.
  - reflexivity.
Qed.

Lemma do_while_always_true_stops_at_ceiling_witness :
  do_while_loop (run_elements None [inl Samples.identity_pass]) (λ _, true) 3
    Samples.initial_state
  = Return (Nat.iter 3 Samples.counted Samples.initial_state, 3%nat) ∧
  run_controller None (DoWhile (λ _, true) [inl Samples.identity_pass] 3)
    Samples.initial_state
  = Return (Nat.iter 3 Samples.counted Samples.initial_state) ∧
  PassManager.max_iteration <$> PassManager.__init__ None None = Return 1000 ∧
  (let! pm := PassManager.__init__ None None in
   let pm := (PassManager.append pm (PassManager.ArgPass Samples.identity_pass)
                None [("do_while", λ _, true)]).1 in
   Return (working_list (PassManager._create_running_passmanager pm)))
  = Return [DoWhile (λ _, true) [inl Samples.identity_pass] 1000].
Proof.
  apply (do_while_always_true_stops_at_ceiling None (λ _, true)
           [inl Samples.identity_pass] 3 Samples.counted Samples.initial_state
           Samples.identity_pass).
  - intros props. reflexivity.
  - intros st. reflexivity.
Defined.

(** The three repetitions of the witness are three executions of the pass. *)
Example three_repetitions_counted :
  count (Nat.iter 3 Samples.counted Samples.initial_state) = 3%nat.
Proof. reflexivity. Qed.

(* ===================================================================== *)
(** ** Facts about [PassManager] *)
(* ===================================================================== *)

Lemma create_running_passmanager_empty (self : PassManager.t) :
  PassManager._pass_sets self = [] →
  PassManager._create_running_passmanager self
  = new_RunningPassManager (PassManager.max_iteration self).
Proof. unfold PassManager._create_running_passmanager. by intros ->. Qed.

(** A running pass manager without controllers executes no pass: the count
    stays 0, no callback is invoked, the property set stays empty. *)
Lemma RunningPassManager_run_empty max_iteration circuit output_name callback :
  RunningPassManager_run (new_RunningPassManager max_iteration) circuit
    output_name callback
  = Return {| graph := match output_name with
                       | Some n => rename circuit n
                       | None => circuit
                       end;
              pset := ∅; count := O; calls := [] |}.
Proof. reflexivity. Qed.


(** C5.  A manager without pass sets, run on a circuit or a list of
    circuits, returns what it was given and does nothing else; with a
    callback the circuit comes back from a running pass manager that had
    nothing to execute, the same graph. *)
Theorem run_without_pass_sets_is_identity (self : PassManager.t) circuits :
  PassManager._pass_sets self = [] →
  PassManager.run self circuits None None
  = {| PassManager.self_after := self; PassManager.trace := [];
       PassManager.returned := Return circuits |} ∧
  ∀ circuit callback,
    PassManager.returned
      (PassManager.run self (PassManager.Single circuit) None callback)
    = Return (PassManager.Single circuit).
Proof.
  intros Hps. split.
  - unfold PassManager.run. by rewrite Hps.
  - intros circuit callback. unfold PassManager.run. rewrite Hps.
    destruct callback as [cb|]; [|done].
    cbn [bool_decide andb]. unfold PassManager._run_single_circuit.
    rewrite (create_running_passmanager_empty _ Hps).
    by rewrite RunningPassManager_run_empty.
Qed.

Lemma run_without_pass_sets_is_identity_witness :
  PassManager.run Samples.empty_manager
    (PassManager.Single Samples.chain_ABC) None None
  = {| PassManager.self_after := Samples.empty_manager;
       PassManager.trace := [];
       PassManager.returned := Return (PassManager.Single Samples.chain_ABC) |} ∧
  ∀ circuit callback,
    PassManager.returned
      (PassManager.run Samples.empty_manager (PassManager.Single circuit)
         None callback)
    = Return (PassManager.Single circuit).
Proof.
  apply (run_without_pass_sets_is_identity Samples.empty_manager).
  reflexivity.
Defined.






(** C8.  The sum of two managers has the pass sets of the first followed by
    those of the second, each pass set as it was, and as many of them as
    the two have together. *)
Theorem add_concatenates_pass_sets (self other : PassManager.t) :
  PassManager.__add__ self (PassManager.OtherManager other)
  = Return {| PassManager._pass_sets :=
                PassManager._pass_sets self ++ PassManager._pass_sets other;
              PassManager.max_iteration := PassManager.max_iteration self;
              PassManager.property_set := None |} ∧
  PassManager.__len__ <$>
    PassManager.__add__ self (PassManager.OtherManager other)
  = Return (PassManager.__len__ self + PassManager.__len__ other)%nat.
Proof.
  split; [reflexivity |].
  cbn. unfold PassManager.__len__. cbn. by rewrite length_app.
Qed.

(* ===================================================================== *)
(** ** Facts about [StagedPassManager] *)
(* ===================================================================== *)

(** The loop of [_update_passmanager] computes the flattening. *)
Lemma fold_extend_stage self stages : ∀ pass_sets,
  fold_left (StagedPassManager.extend_stage self) stages pass_sets
  = pass_sets ++
    concat (map (λ stage,
                   StagedPassManager.slot_pass_sets self ("pre_" +:+ stage)
                   ++ StagedPassManager.slot_pass_sets self stage
                   ++ StagedPassManager.slot_pass_sets self ("post_" +:+ stage))
              stages).
Proof.
  induction stages as [|stage stages IH]; intros pass_sets; simpl.
  - by rewrite app_nil_r.
  - rewrite IH. unfold StagedPassManager.extend_stage,
      StagedPassManager.slot_pass_sets.
    destruct (StagedPassManager.getattr self ("pre_" +:+ stage)),
      (StagedPassManager.getattr self stage),
      (StagedPassManager.getattr self ("post_" +:+ stage));
      simpl; by rewrite ?app_nil_r, <- ?app_assoc.
Qed.

Lemma update_passmanager_flattening (self : StagedPassManager.t) :
  PassManager._pass_sets
    (StagedPassManager.base (StagedPassManager._update_passmanager self))
  = StagedPassManager.flattening self.
Proof.
  unfold StagedPassManager._update_passmanager, StagedPassManager.flattening.
  simpl. by rewrite fold_extend_stage.
Qed.

Lemma flattening_update_passmanager (self : StagedPassManager.t) :
  StagedPassManager.flattening (StagedPassManager._update_passmanager self)
  = StagedPassManager.flattening self.
Proof. reflexivity. Qed.

(** Assigning the slot of a declared stage does recompute the pass sets. *)
Lemma setattr_stage_flattens (self : StagedPassManager.t) stage value :
  stage ∈ StagedPassManager.stages self →
  let self' := StagedPassManager.__setattr__ self stage value in
  PassManager._pass_sets (StagedPassManager.base self')
  = StagedPassManager.flattening self'.
Proof.
  intros Hin. unfold StagedPassManager.__setattr__. cbn [StagedPassManager.stages].
  rewrite (bool_decide_eq_true_2 _ Hin). cbn [orb].
  by rewrite update_passmanager_flattening.
Qed.

Lemma substring_all (s : string) : String.substring 0 (String.length s) s = s.
Proof. induction s as [|c s IH]; simpl; [done | by rewrite IH]. Qed.

Lemma string_from_pre (s : string) :
  StagedPassManager.string_from 4 ("pre_" +:+ s) = s.
Proof.
  unfold StagedPassManager.string_from. simpl. rewrite Nat.sub_0_r.
  apply substring_all.
Qed.

Lemma string_from_post (s : string) :
  StagedPassManager.string_from 5 ("post_" +:+ s) = s.
Proof.
  unfold StagedPassManager.string_from. simpl. rewrite Nat.sub_0_r.
  apply substring_all.
Qed.

(** Assigning the pre- or post-slot of a declared stage does not: the test
    in [__setattr__] asks for the rest of the name not to be a stage. *)
Lemma setattr_pre_stage_stale (self : StagedPassManager.t) stage value :
  stage ∈ StagedPassManager.stages self →
  "pre_" +:+ stage ∉ StagedPassManager.stages self →
  PassManager._pass_sets
    (StagedPassManager.base
       (StagedPassManager.__setattr__ self ("pre_" +:+ stage) value))
  = PassManager._pass_sets (StagedPassManager.base self).
Proof.
  intros Hin Hnot. unfold StagedPassManager.__setattr__.
  cbn [StagedPassManager.stages].
  rewrite (bool_decide_eq_false_2 _ Hnot), string_from_pre.
  rewrite (bool_decide_eq_false_2 (stage ∉ _)) by auto.
  rewrite andb_false_r. cbn [orb].
  destruct (String.prefix "post_" ("pre_" +:+ stage)) eqn:Hp; [|done].
  simpl in Hp. done.
Qed.

Lemma setattr_post_stage_stale (self : StagedPassManager.t) stage value :
  stage ∈ StagedPassManager.stages self →
  "post_" +:+ stage ∉ StagedPassManager.stages self →
  PassManager._pass_sets
    (StagedPassManager.base
       (StagedPassManager.__setattr__ self ("post_" +:+ stage) value))
  = PassManager._pass_sets (StagedPassManager.base self).
Proof.
  intros Hin Hnot. unfold StagedPassManager.__setattr__.
  cbn [StagedPassManager.stages].
  rewrite (bool_decide_eq_false_2 _ Hnot), string_from_post.
  rewrite (bool_decide_eq_false_2 (stage ∉ _)) by auto.
  rewrite andb_false_r. cbn [orb].
  destruct (String.prefix "pre_" ("post_" +:+ stage)) eqn:Hp; [|done].
  simpl in Hp. done.
Qed.

(** C6.  On the default staged manager, assigning a manager with one pass
    set to [pre_init] leaves the underlying pass sets empty, although the
    flattening of the slots now has that pass set. *)
Theorem pre_stage_assignment_leaves_pass_sets_stale :
  let spm := StagedPassManager.__setattr__ Samples.default_staged "pre_init"
               (Some Samples.one_set_manager) in
  StagedPassManager.__init__ None [] = Return Samples.default_staged ∧
  PassManager._pass_sets (StagedPassManager.base spm) = [] ∧
  StagedPassManager.flattening spm = [Samples.one_pass_set] ∧
  PassManager._pass_sets (StagedPassManager.base spm)
  ≠ StagedPassManager.flattening spm.
Proof.
  cbv zeta. split; [|split; [|split]].
  - vm_compute. reflexivity.
  - vm_compute. reflexivity.
  - vm_compute. reflexivity.
  - vm_compute. discriminate.
Qed.

(** C7.  On a staged manager [append], [replace], [remove], indexed
    assignment and [+] raise [NotImplementedError] whatever their
    arguments and leave the manager as it was; assigning a slot is accepted
    and sets the slot. *)
Theorem staged_pass_level_mutation_refused (self : StagedPassManager.t)
    passes index item other max_iteration flow_controller_conditions
    attr value :
  StagedPassManager.append self passes max_iteration flow_controller_conditions
  = (self, Raise NotImplementedError) ∧
  StagedPassManager.replace self index passes max_iteration
    flow_controller_conditions
  = (self, Raise NotImplementedError) ∧
  StagedPassManager.remove self index = (self, Raise NotImplementedError) ∧
  StagedPassManager.__setitem__ self index item
  = (self, Raise NotImplementedError) ∧
  StagedPassManager.__add__ self other = Raise NotImplementedError ∧
  StagedPassManager.slots (StagedPassManager.__setattr__ self attr value)
    !! attr = Some value.
Proof.
  repeat split; try reflexivity.
  unfold StagedPassManager.__setattr__.
  destruct (_ || _ || _); simpl; apply lookup_insert_eq.
Qed.

(* ===================================================================== *)
(** ** The code on small inputs *)
(* ===================================================================== *)

(** A node without duration and without calibration, visited first. *)
Example asap_unset_duration :
  ASAPSchedule_run Samples.dt
    (Samples.one_track [Samples.on_q0 (Samples.gate "y" DurNone)])
  = Raise (TranspilerError "Duration of y on qubits [0] is not found.").
Proof. reflexivity. Qed.

(** The latest-first pass visits the last node first. *)
Example alap_unset_duration_visited_first :
  ALAPSchedule_run Samples.dt Samples.resolved_then_unset
  = Raise (TranspilerError "Duration of y on qubits [0] is not found.").
Proof. reflexivity. Qed.

(** A graph with two quantum registers is not physical. *)
Example asap_not_physical :
  ASAPSchedule_run Samples.dt
    {| name := None; metadata := None; calibrations := ∅;
       qregs := [("q", [Qubit 0]); ("r", [Qubit 1])]; cregs := [];
       qubits := [Qubit 0; Qubit 1]; clbits := [];
       op_nodes := []; duration := None; unit := VStr "dt" |}
  = Raise (TranspilerError "ASAP schedule runs on physical circuits only").
Proof. reflexivity. Qed.

(** A calibration entry resolves an unset duration; the node then meets the
    test against [ParameterExpression] like any other. *)
Example asap_calibrated_duration :
  ASAPSchedule_run Samples.dt
    {| name := None; metadata := None;
       calibrations := {[ "y" := {[ ([0%nat], []) := DurValue 7 ]} ]};
       qregs := [("q", [Qubit 0])]; cregs := [];
       qubits := [Qubit 0]; clbits := [];
       op_nodes := [Samples.on_q0 (Samples.gate "y" DurNone)];
       duration := None; unit := VStr "dt" |}
  = Raise (NameError "ParameterExpression").
Proof. reflexivity. Qed.

(** Stage names with white space or an operator are refused, and so is a
    keyword for a stage that is not declared. *)
Example staged_invalid_stage_names :
  StagedPassManager.__init__ (Some ["single stage"; "ok"; "a+b"]) []
  = Raise (ValueError
             "The following stage names are not valid: single stage, a+b").
Proof. reflexivity. Qed.

Example staged_unknown_keyword :
  StagedPassManager.__init__ None [("pre_unknown", None)]
  = Raise (AttributeError "pre_unknown is not a valid stage.").
Proof. reflexivity. Qed.

(** The constructor flattens its keywords: pre, stage, post. *)
Example staged_init_flattens :
  (λ spm, length (PassManager._pass_sets (StagedPassManager.base spm)))
    <$> StagedPassManager.__init__ (Some ["one"])
          [("post_one", Some Samples.one_set_manager);
           ("pre_one", Some Samples.one_set_manager);
           ("one", Some Samples.empty_manager)]
  = Return 2%nat.
Proof. reflexivity. Qed.

(** An index out of range, and the last pass set removed by [-1]. *)
Example remove_out_of_range :
  PassManager.remove Samples.one_set_manager 1
  = (Samples.one_set_manager,
     Raise (TranspilerError "Index to replace 1 does not exists")).
Proof. reflexivity. Qed.

Example remove_last :
  PassManager.remove Samples.one_set_manager (-1)
  = (Samples.empty_manager, Return ()).
Proof. reflexivity. Qed.

(** Something that is no pass makes [+] a [TypeError]. *)
Example add_not_a_pass :
  PassManager.__add__ Samples.empty_manager
    (PassManager.OtherPasses (PassManager.ArgList [PassManager.ObjOther "int"]))
  = Raise (TypeError
             "unsupported operand type + for <class 'qiskit.transpiler.passmanager.PassManager'> and <class 'list'>").
Proof. reflexivity. Qed.

(* ===================================================================== *)
(** ** More about the scheduling passes *)
(* ===================================================================== *)

Lemma dict_get_is_Some {K V : Type} `{EqDecision K} (d : list (K * V)) k :
  is_Some (dict_get d k) ↔ k ∈ d.*1.
Proof.
  induction d as [|[k' v] d IH]; simpl.
  - split; [by intros [? ?] | by intros ?%elem_of_nil].
  - case_decide as Hk.
    + subst. split; [intros _; by left | by eauto].
    + rewrite IH. split; [by right |].
      intros [?|?]%elem_of_cons; [by subst | done].
Qed.

(** A physical graph is one whose only quantum register is [q]. *)
Lemma not_physical_false dag :
  not_physical dag = false ↔ ∃ bits, qregs dag = [("q", bits)].
Proof.
  unfold not_physical. split.
  - intros H. apply orb_false_elim in H as [Hlen Hq].
    apply negb_false_iff, bool_decide_eq_true in Hlen.
    apply bool_decide_eq_false in Hq.
    destruct (qregs dag) as [|[k bits] [|? ?]]; try done.
    simpl in Hq. case_decide; [subst; eauto | done].
  - intros [bits ->]. reflexivity.
Qed.

Lemma fresh_bits_nil bits : fresh_bits [] bits = bits.
Proof.
  unfold fresh_bits. induction bits as [|b bits IH]; [done |].
  rewrite filter_cons_True; [by rewrite IH | apply not_elem_of_nil].
Qed.

(** Adding classical registers works exactly when no name comes twice. *)
Lemma foldM_add_creg_Return regs : ∀ d0 d,
  foldM add_creg d0 regs = Return d →
  NoDup regs.*1 ∧ ∀ reg, reg ∈ regs → reg.1 ∉ (cregs d0).*1.
Proof.
  induction regs as [|reg regs IH]; intros d0 d; simpl.
  - intros _. split; [constructor | by intros ? ?%elem_of_nil].
  - unfold add_creg at 1. case_decide as Hdup; [done |]. rewrite bind_Return.
    intros Hrest. apply IH in Hrest as [Hnd Hfresh]. simpl in Hfresh.
    rewrite dict_get_is_Some in Hdup. split.
    + constructor; [|done]. intros Hin.
      apply list_elem_of_fmap in Hin as (reg' & Heq & Hin).
      apply (Hfresh reg' Hin). rewrite fmap_app. apply elem_of_app. right.
      rewrite <- Heq. simpl. by left.
    + intros reg' [->|Hin]%elem_of_cons; [done |].
      intros Hc. apply (Hfresh reg' Hin). rewrite fmap_app.
      apply elem_of_app. by left.
Qed.

Lemma foldM_add_creg_succeeds regs : ∀ d0,
  NoDup regs.*1 → (∀ reg, reg ∈ regs → reg.1 ∉ (cregs d0).*1) →
  ∃ d, foldM add_creg d0 regs = Return d.
Proof.
  induction regs as [|reg regs IH]; intros d0 Hnd Hfresh; simpl; [eauto |].
  apply NoDup_cons in Hnd as [Hreg Hnd].
  unfold add_creg at 1. case_decide as Hdup.
  - apply dict_get_is_Some in Hdup. destruct (Hfresh reg); [by left | done].
  - rewrite bind_Return. apply IH; [done |]. simpl.
    intros reg' Hin. rewrite fmap_app. intros [Hc|Hc]%elem_of_app.
    + apply (Hfresh reg'); [by right | done].
    + simpl in Hc. apply list_elem_of_singleton in Hc. apply Hreg.
      rewrite <- Hc. apply list_elem_of_fmap. eauto.
Qed.

Lemma copy_registers_Return dag new_dag :
  copy_registers dag = Return new_dag → NoDup (cregs dag).*1.
Proof.
  unfold copy_registers.
  destruct (foldM add_qreg new_DAGCircuit (qregs dag)) as [d1|e]; [|done].
  rewrite bind_Return. by intros [? _]%foldM_add_creg_Return.
Qed.

Lemma copy_registers_succeeds dag bits :
  qregs dag = [("q", bits)] → NoDup (cregs dag).*1 →
  ∃ new_dag, copy_registers dag = Return new_dag.
Proof.
  intros Hq Hnd. unfold copy_registers. rewrite Hq. cbn [foldM].
  unfold add_qreg at 1. cbn [qregs new_DAGCircuit dict_get].
  case_decide as Hdup; [by destruct Hdup |]. rewrite !bind_Return.
  apply foldM_add_creg_succeeds; [done |]. intros reg _. simpl.
  apply not_elem_of_nil.
Qed.

(** The output of either pass on a graph it accepts. *)
Lemma finish_no_nodes dag new_dag bits time_unit :
  qregs dag = [("q", bits)] →
  copy_registers dag = Return new_dag →
  finish dag new_dag 0 time_unit
  = {| name := name dag; metadata := metadata dag;
       calibrations := calibrations dag;
       qregs := qregs dag; cregs := cregs dag;
       qubits := bits; clbits := declared_bits (cregs dag);
       op_nodes := []; duration := Some 0; unit := time_unit |}.
Proof.
  intros Hq Hcopy.
  destruct (copy_registers_fields _ _ Hcopy) as (H1 & H2 & H3 & H4 & H5).
  unfold finish. rewrite H1, H2, H3, H4, H5. f_equal.
  rewrite Hq. unfold declared_bits. simpl. apply fresh_bits_nil.
Qed.

(** X1.  [ASAPSchedule.run] and [ALAPSchedule.run] return exactly on the
    graphs whose only quantum register is [q], whose classical registers
    have distinct names, that have at least one bit and no operation node;
    the graph returned then has the registers of the input, no node and no
    Delay, the span 0 and the time unit of the property set. *)
Theorem scheduling_returns_exactly_without_nodes property_set dag out :
  let returns_on bits :=
    qregs dag = [("q", bits)] ∧ NoDup (cregs dag).*1 ∧ op_nodes dag = [] ∧
    qubits dag ++ clbits dag ≠ [] ∧
    out = {| name := name dag; metadata := metadata dag;
             calibrations := calibrations dag;
             qregs := qregs dag; cregs := cregs dag;
             qubits := bits; clbits := declared_bits (cregs dag);
             op_nodes := []; duration := Some 0;
             unit := get_time_unit property_set |} in
  (ASAPSchedule_run property_set dag = Return out ↔ ∃ bits, returns_on bits) ∧
  (ALAPSchedule_run property_set dag = Return out ↔ ∃ bits, returns_on bits).
Proof.
  intros returns_on. subst returns_on. cbn beta. split; split.
  - intros H.
    apply ASAPSchedule_run_Return in H as (Hphys & Hn & Hb & nd & Hcopy & ->).
    apply not_physical_false in Hphys as [bits Hq]. exists bits.
    repeat split; [done | by eapply copy_registers_Return | done | done |].
    by apply finish_no_nodes.
  - intros (bits & Hq & Hnd & Hn & Hb & ->).
    destruct (copy_registers_succeeds dag bits Hq Hnd) as [nd Hcopy].
    rewrite (ASAPSchedule_run_no_nodes property_set dag nd); try done.
    + f_equal. by apply finish_no_nodes.
    + apply not_physical_false. eauto.
  - intros H.
    apply ALAPSchedule_run_Return in H as (Hphys & Hn & Hb & nd & Hcopy & ->).
    apply not_physical_false in Hphys as [bits Hq]. exists bits.
    repeat split; [done | by eapply copy_registers_Return | done | done |].
    by apply finish_no_nodes.
  - intros (bits & Hq & Hnd & Hn & Hb & ->).
    destruct (copy_registers_succeeds dag bits Hq Hnd) as [nd Hcopy].
    rewrite (ALAPSchedule_run_no_nodes property_set dag nd); try done.
    + f_equal. by apply finish_no_nodes.
    + apply not_physical_false. eauto.
Qed.

Lemma resolve_duration_set dag bit_indices node :
  op_duration (node_op node) ≠ DurNone →
  resolve_duration dag bit_indices node = Return node.
Proof.
  intros Hd. unfold resolve_duration.
  by destruct (op_duration (node_op node)).
Qed.

(** What a pass does once its registers are copied, by the node it visits
    first. *)
Lemma asap_run_first_node property_set dag new_dag node nodes :
  not_physical dag = false →
  copy_registers dag = Return new_dag →
  op_nodes dag = node :: nodes →
  ASAPSchedule_run property_set dag
  = match resolve_duration dag (dict_enumerate (qubits dag)) node with
    | Return _ => Raise (NameError "ParameterExpression")
    | Raise e => Raise e
    end.
Proof.
  intros Hphys Hcopy Hnodes. unfold ASAPSchedule_run.
  rewrite Hphys, Hcopy, bind_Return. unfold topological_op_nodes.
  rewrite Hnodes.
  pose proof (asap_schedule_node_exn dag (get_time_unit property_set)
                (dict_enumerate (qubits dag))
                (new_dag, dict_fromkeys (qubits dag ++ clbits dag) 0) node)
    as Hexn.
  destruct (resolve_duration dag (dict_enumerate (qubits dag)) node);
    by rewrite (foldM_cons_Raise _ _ _ _ _ Hexn).
Qed.

Lemma alap_run_last_node property_set dag new_dag node nodes :
  not_physical dag = false →
  copy_registers dag = Return new_dag →
  op_nodes dag = nodes ++ [node] →
  ALAPSchedule_run property_set dag
  = match resolve_duration dag (dict_enumerate (qubits dag)) node with
    | Return _ => Raise (NameError "ParameterExpression")
    | Raise e => Raise e
    end.
Proof.
  intros Hphys Hcopy Hnodes. unfold ALAPSchedule_run.
  rewrite Hphys, Hcopy, bind_Return. unfold topological_op_nodes.
  rewrite Hnodes, reverse_snoc.
  pose proof (alap_schedule_node_exn dag (get_time_unit property_set)
                (dict_enumerate (qubits dag))
                (new_dag, dict_fromkeys (qubits dag ++ clbits dag) 0) node)
    as Hexn.
  destruct (resolve_duration dag (dict_enumerate (qubits dag)) node);
    by rewrite (foldM_cons_Raise _ _ _ _ _ Hexn).
Qed.

(** X2.  On a graph whose only quantum register is [q] and whose classical
    registers have distinct names, [ASAPSchedule.run] raises [NameError]
    for [ParameterExpression] as soon as the first node in topological
    order has a duration, a number or a parameter expression alike,
    whatever the nodes after it. *)
Theorem asap_first_node_with_duration_raises_NameError property_set dag bits
    node nodes :
  qregs dag = [("q", bits)] →
  NoDup (cregs dag).*1 →
  op_nodes dag = node :: nodes →
  op_duration (node_op node) ≠ DurNone →
  ASAPSchedule_run property_set dag = Raise (NameError "ParameterExpression").
Proof.
  intros Hq Hnd Hnodes Hd.
  destruct (copy_registers_succeeds dag bits Hq Hnd) as [nd Hcopy].
  rewrite (asap_run_first_node property_set dag nd node nodes); try done.
  - by rewrite resolve_duration_set.
  - apply not_physical_false. eauto.
Qed.

Lemma asap_first_node_with_duration_raises_NameError_witness :
  ASAPSchedule_run Samples.dt Samples.resolved_then_unset
  = Raise (NameError "ParameterExpression").
Proof.
  apply (asap_first_node_with_duration_raises_NameError Samples.dt
           Samples.resolved_then_unset [Qubit 0]
           (Samples.on_q0 (Samples.gate "x" (DurValue 10)))
           [Samples.on_q0 (Samples.gate "y" DurNone)]).
  - reflexivity.
  - constructor.
  - reflexivity.
  - discriminate.
Defined.

(** X3.  On such a graph [ALAPSchedule.run] raises [NameError] for
    [ParameterExpression] as soon as the last node in topological order,
    which it visits first, has a duration, whatever the nodes before it. *)
Theorem alap_last_node_with_duration_raises_NameError property_set dag bits
    node nodes :
  qregs dag = [("q", bits)] →
  NoDup (cregs dag).*1 →
  op_nodes dag = nodes ++ [node] →
  op_duration (node_op node) ≠ DurNone →
  ALAPSchedule_run property_set dag = Raise (NameError "ParameterExpression").
Proof.
  intros Hq Hnd Hnodes Hd.
  destruct (copy_registers_succeeds dag bits Hq Hnd) as [nd Hcopy].
  rewrite (alap_run_last_node property_set dag nd node nodes); try done.
  - by rewrite resolve_duration_set.
  - apply not_physical_false. eauto.
Qed.

Lemma alap_last_node_with_duration_raises_NameError_witness :
  ALAPSchedule_run Samples.dt Samples.chain_ABC
  = Raise (NameError "ParameterExpression").
Proof.
  apply (alap_last_node_with_duration_raises_NameError Samples.dt
           Samples.chain_ABC [Qubit 0]
           (Samples.on_q0 (Samples.gate "C" (DurValue 10)))
           [Samples.on_q0 (Samples.gate "A" (DurValue 10));
            Samples.on_q0 (Samples.gate "B" (DurValue 20))]).
  - reflexivity.
  - constructor.
  - reflexivity.
  - discriminate.
Defined.

Lemma dict_get_set_eq {K V : Type} `{EqDecision K} (d : list (K * V)) k v :
  dict_get (dict_set d k v) k = Some v.
Proof.
  induction d as [|[k' v'] d IH]; simpl.
  - by rewrite decide_True.
  - case_decide as Hk; simpl; [by rewrite decide_True |].
    by rewrite decide_False.
Qed.

Lemma dict_get_set_ne {K V : Type} `{EqDecision K} (d : list (K * V)) k k' v :
  k' ≠ k → dict_get (dict_set d k' v) k = dict_get d k.
Proof.
  intros Hne. induction d as [|[k0 v0] d IH]; simpl.
  - by rewrite decide_False.
  - case_decide as Hk; simpl.
    + subst k0. by rewrite !decide_False.
    + case_decide; [done | exact IH].
Qed.

Lemma fold_dict_set_notin {K : Type} `{EqDecision K} (l : list (nat * K)) :
  ∀ (d : list (K * nat)) k,
    k ∉ l.*2 →
    dict_get (fold_left (λ d ik, dict_set d ik.2 ik.1) l d) k = dict_get d k.
Proof.
  induction l as [|[i0 k0] l IH]; intros d k Hk; simpl; [done |].
  rewrite fmap_cons, not_elem_of_cons in Hk. destruct Hk as [Hne Hk].
  rewrite (IH _ _ Hk). simpl. by apply dict_get_set_ne.
Qed.

Lemma fold_dict_set_in {K : Type} `{EqDecision K} (l : list (nat * K)) :
  ∀ (d : list (K * nat)) k i,
    NoDup l.*2 → (i, k) ∈ l →
    dict_get (fold_left (λ d ik, dict_set d ik.2 ik.1) l d) k = Some i.
Proof.
  induction l as [|[i0 k0] l IH]; intros d k i Hnd Hin; simpl.
  - by apply elem_of_nil in Hin.
  - rewrite fmap_cons in Hnd. apply NoDup_cons in Hnd as [Hfresh Hnd].
    apply elem_of_cons in Hin as [[= -> ->]|Hin].
    + rewrite (fold_dict_set_notin l _ _ Hfresh). simpl.
      apply dict_get_set_eq.
    + by apply IH.
Qed.

(** In a list of qubits without repetition, [bit_indices] gives each qubit
    its position. *)
Lemma dict_enumerate_lookup (qubits : list Bit) q i :
  NoDup qubits → qubits !! i = Some q →
  dict_get (dict_enumerate qubits) q = Some i.
Proof.
  intros Hnd Hq. unfold dict_enumerate.
  assert ((imap pair qubits).*2 = qubits) as Hkeys.
  { apply list_eq. intros n. rewrite list_lookup_fmap, list_lookup_imap.
    by destruct (qubits !! n). }
  apply fold_dict_set_in.
  - by rewrite Hkeys.
  - apply elem_of_lookup_imap. eauto.
Qed.

Lemma bit_indices_positions (qubits qargs : list Bit) indices :
  NoDup qubits →
  Forall2 (λ qarg index, qubits !! index = Some qarg) qargs indices →
  forM (bit_index (dict_enumerate qubits)) qargs = Return indices.
Proof.
  intros Hnd Hpos. induction Hpos as [|q i qargs indices Hq _ IH]; [done |].
  cbn [forM]. unfold bit_index at 1.
  rewrite (dict_enumerate_lookup _ _ _ Hnd Hq), bind_Return, IH. done.
Qed.

(** X4.  When the first node [ASAPSchedule.run] visits has no duration and
    the graph has no calibration for it, the run raises the
    [TranspilerError] that names the operation and the indices of its
    qubits: for each qubit of the node, in the order of the node, its
    position among the qubits of the graph. *)
Theorem asap_unset_duration_names_operation property_set dag bits node nodes
    indices :
  qregs dag = [("q", bits)] →
  NoDup (cregs dag).*1 →
  NoDup (qubits dag) →
  op_nodes dag = node :: nodes →
  op_duration (node_op node) = DurNone →
  Forall2 (λ qarg index, qubits dag !! index = Some qarg) (qargs node)
    indices →
  has_calibration_for dag node indices = false →
  ASAPSchedule_run property_set dag
  = Raise (TranspilerError
             ("Duration of " +:+ op_name (node_op node) +:+ " on qubits "
              +:+ str_list_nat indices +:+ " is not found.")).
Proof.
  intros Hq Hnd Hqubits Hnodes Hd Hpos Hcal.
  destruct (copy_registers_succeeds dag bits Hq Hnd) as [nd Hcopy].
  rewrite (asap_run_first_node property_set dag nd node nodes); try done.
  - rewrite (unset_duration_message dag _ node indices); try done.
    by apply bit_indices_positions.
  - apply not_physical_false. eauto.
Qed.

Lemma asap_unset_duration_names_operation_witness :
  ASAPSchedule_run Samples.dt
    (Samples.three_qubits
       [Samples.cx_2_0; Samples.on_q0 (Samples.gate "x" (DurValue 10))])
  = Raise (TranspilerError "Duration of cx on qubits [2, 0] is not found.").
Proof.
  apply (asap_unset_duration_names_operation Samples.dt
           (Samples.three_qubits
              [Samples.cx_2_0; Samples.on_q0 (Samples.gate "x" (DurValue 10))])
           [Qubit 10; Qubit 11; Qubit 12] Samples.cx_2_0
           [Samples.on_q0 (Samples.gate "x" (DurValue 10))] [2%nat; 0%nat]).
  - reflexivity.
  - constructor.
  - apply (bool_decide_unpack _). vm_compute. reflexivity.
  - reflexivity.
  - reflexivity.
  - repeat constructor.
  - reflexivity.
Defined.

(** X5.  The same for [ALAPSchedule.run] and the last node in topological
    order, which it visits first. *)
Theorem alap_unset_duration_names_operation property_set dag bits node nodes
    indices :
  qregs dag = [("q", bits)] →
  NoDup (cregs dag).*1 →
  NoDup (qubits dag) →
  op_nodes dag = nodes ++ [node] →
  op_duration (node_op node) = DurNone →
  Forall2 (λ qarg index, qubits dag !! index = Some qarg) (qargs node)
    indices →
  has_calibration_for dag node indices = false →
  ALAPSchedule_run property_set dag
  = Raise (TranspilerError
             ("Duration of " +:+ op_name (node_op node) +:+ " on qubits "
              +:+ str_list_nat indices +:+ " is not found.")).
Proof.
  intros Hq Hnd Hqubits Hnodes Hd Hpos Hcal.
  destruct (copy_registers_succeeds dag bits Hq Hnd) as [nd Hcopy].
  rewrite (alap_run_last_node property_set dag nd node nodes); try done.
  - rewrite (unset_duration_message dag _ node indices); try done.
    by apply bit_indices_positions.
  - apply not_physical_false. eauto.
Qed.

Lemma alap_unset_duration_names_operation_witness :
  ALAPSchedule_run Samples.dt
    (Samples.three_qubits
       [Samples.on_q0 (Samples.gate "x" (DurValue 10)); Samples.cx_2_0])
  = Raise (TranspilerError "Duration of cx on qubits [2, 0] is not found.").
Proof.
  apply (alap_unset_duration_names_operation Samples.dt
           (Samples.three_qubits
              [Samples.on_q0 (Samples.gate "x" (DurValue 10)); Samples.cx_2_0])
           [Qubit 10; Qubit 11; Qubit 12] Samples.cx_2_0
           [Samples.on_q0 (Samples.gate "x" (DurValue 10))] [2%nat; 0%nat]).
  - reflexivity.
  - constructor.
  - apply (bool_decide_unpack _). vm_compute. reflexivity.
  - reflexivity.
  - reflexivity.
  - repeat constructor.
  - reflexivity.
Defined.

(** X6.  On a graph that has the register [q] but no bit at all and no
    operation node, both passes raise the [ValueError] of [max] on an empty
    sequence. *)
Theorem scheduling_without_bits_raises_ValueError property_set dag bits :
  qregs dag = [("q", bits)] →
  NoDup (cregs dag).*1 →
  op_nodes dag = [] →
  qubits dag ++ clbits dag = [] →
  ASAPSchedule_run property_set dag
  = Raise (ValueError "max() arg is an empty sequence") ∧
  ALAPSchedule_run property_set dag
  = Raise (ValueError "max() arg is an empty sequence").
Proof.
  intros Hq Hnd Hn Hb.
  destruct (copy_registers_succeeds dag bits Hq Hnd) as [nd Hcopy].
  assert (Hphys : not_physical dag = false) by (apply not_physical_false; eauto).
  unfold ASAPSchedule_run, ALAPSchedule_run, topological_op_nodes.
  by rewrite Hphys, Hcopy, Hn, Hb.
Qed.

Lemma scheduling_without_bits_raises_ValueError_witness :
  ASAPSchedule_run Samples.dt Samples.no_bits
  = Raise (ValueError "max() arg is an empty sequence") ∧
  ALAPSchedule_run Samples.dt Samples.no_bits
  = Raise (ValueError "max() arg is an empty sequence").
Proof.
  apply (scheduling_without_bits_raises_ValueError Samples.dt Samples.no_bits []).
  - reflexivity.
  - constructor.
  - reflexivity.
  - reflexivity.
Defined.

(** The exceptions of the parts of [run]. *)
Lemma foldM_add_qreg_exn regs : ∀ d0 e,
  foldM add_qreg d0 regs = Raise e → ∃ msg, e = DAGCircuitError msg.
Proof.
  induction regs as [|reg regs IH]; intros d0 e; simpl; [done |].
  unfold add_qreg at 1. case_decide.
  - rewrite bind_Raise. intros [= <-]. eauto.
  - rewrite bind_Return. apply IH.
Qed.

Lemma foldM_add_creg_exn regs : ∀ d0 e,
  foldM add_creg d0 regs = Raise e → ∃ msg, e = DAGCircuitError msg.
Proof.
  induction regs as [|reg regs IH]; intros d0 e; simpl; [done |].
  unfold add_creg at 1. case_decide.
  - rewrite bind_Raise. intros [= <-]. eauto.
  - rewrite bind_Return. apply IH.
Qed.

Lemma copy_registers_exn dag e :
  copy_registers dag = Raise e → ∃ msg, e = DAGCircuitError msg.
Proof.
  unfold copy_registers.
  destruct (foldM add_qreg new_DAGCircuit (qregs dag)) as [d1|e1] eqn:Hq.
  - rewrite bind_Return. apply foldM_add_creg_exn.
  - rewrite bind_Raise. intros [= <-]. by eapply foldM_add_qreg_exn.
Qed.

Lemma forM_bit_index_exn bit_indices qargs e :
  forM (bit_index bit_indices) qargs = Raise e → ∃ key, e = KeyError key.
Proof.
  induction qargs as [|q qargs IH]; simpl; [done |].
  unfold bit_index at 1. destruct (dict_get bit_indices q).
  - rewrite bind_Return.
    destruct (forM (bit_index bit_indices) qargs); [done |].
    rewrite bind_Raise. intros [= <-]. by apply IH.
  - rewrite bind_Raise. intros [= <-]. eauto.
Qed.

Lemma resolve_duration_exn dag bit_indices node e :
  resolve_duration dag bit_indices node = Raise e →
  (∃ key, e = KeyError key) ∨
  (∃ rest, e = TranspilerError ("Duration of " +:+ rest)).
Proof.
  unfold resolve_duration. destruct (op_duration (node_op node)); [|done..].
  destruct (forM (bit_index bit_indices) (qargs node)) as [indices|e1] eqn:Hi.
  - rewrite bind_Return.
    destruct (has_calibration_for dag node indices).
    + unfold calibrated_duration.
      destruct (calibrations dag !! op_name (node_op node)) as [table|];
        [|simpl; intros [= <-]; eauto].
      destruct (table !! (indices, op_params (node_op node))) as [d|];
        [|simpl; intros [= <-]; eauto].
      simpl. destruct d; [|done..]. intros [= <-]. eauto.
    + rewrite bind_Return. destruct (op_duration (node_op node)); [|done..].
      intros [= <-]. eauto.
  - rewrite bind_Raise. intros [= <-]. left. by eapply forM_bit_index_exn.
Qed.

Lemma max_exn l e :
  max l = Raise e → e = ValueError "max() arg is an empty sequence".
Proof. destruct l; [by intros [= <-] | done]. Qed.

(** X7.  Either pass raises its "runs on physical circuits only" error
    exactly when [q] is not the only quantum register of the graph; no
    other failure of a run carries that message. *)
Theorem physical_circuits_error_iff property_set dag :
  (ASAPSchedule_run property_set dag
   = Raise (TranspilerError "ASAP schedule runs on physical circuits only")
   ↔ ¬ ∃ bits, qregs dag = [("q", bits)]) ∧
  (ALAPSchedule_run property_set dag
   = Raise (TranspilerError "ALAP schedule runs on physical circuits only")
   ↔ ¬ ∃ bits, qregs dag = [("q", bits)]).
Proof.
  rewrite <- not_physical_false.
  destruct (not_physical dag) eqn:Hphys.
  - unfold ASAPSchedule_run, ALAPSchedule_run. rewrite Hphys.
    split; (split; [by intros _ | done]).
  - assert (∀ e1 e2 : exn, Raise (A := DAGCircuit) e1 = Raise e2 → e1 = e2)
      as Hinj by (by intros ? ? [= ->]).
    split; (split; [|done]); intros Hrun; exfalso.
    + destruct (copy_registers dag) as [nd|e] eqn:Hcopy.
      * destruct (op_nodes dag) as [|node nodes] eqn:Hn.
        -- revert Hrun. unfold ASAPSchedule_run, topological_op_nodes.
           rewrite Hphys, Hcopy, Hn. simpl.
           destruct (max _) as [?|e] eqn:Hmax; simpl; [done |].
           apply max_exn in Hmax. by subst e.
        -- rewrite (asap_run_first_node _ _ nd node nodes) in Hrun by done.
           destruct (resolve_duration _ _ node) as [?|e] eqn:Hr; [done |].
           apply Hinj in Hrun. subst e.
           by apply resolve_duration_exn in Hr as [[? ?]|[? ?]].
      * revert Hrun. unfold ASAPSchedule_run. rewrite Hphys, Hcopy. simpl.
        intros Hrun%Hinj. subst e.
        by apply copy_registers_exn in Hcopy as [? ?].
    + destruct (copy_registers dag) as [nd|e] eqn:Hcopy.
      * destruct (op_nodes dag) as [|node nodes _] eqn:Hn using rev_ind.
        -- revert Hrun. unfold ALAPSchedule_run, topological_op_nodes.
           rewrite Hphys, Hcopy, Hn. simpl.
           destruct (max _) as [?|e] eqn:Hmax; simpl; [done |].
           apply max_exn in Hmax. by subst e.
        -- rewrite (alap_run_last_node _ _ nd node nodes) in Hrun by done.
           destruct (resolve_duration _ _ node) as [?|e] eqn:Hr; [done |].
           apply Hinj in Hrun. subst e.
           by apply resolve_duration_exn in Hr as [[? ?]|[? ?]].
      * revert Hrun. unfold ALAPSchedule_run. rewrite Hphys, Hcopy. simpl.
        intros Hrun%Hinj. subst e.
        by apply copy_registers_exn in Hcopy as [? ?].
Qed.

(* ===================================================================== *)
(** ** More about [PassManager] *)
(* ===================================================================== *)

Lemma list_index_valid (n : nat) (index : Z) :
  - Z.of_nat n ≤ index < Z.of_nat n →
  PassManager.list_index n index = Some (Z.to_nat (index `mod` Z.of_nat n))
  ∧ (Z.to_nat (index `mod` Z.of_nat n) < n)%nat.
Proof.
  intros Hrange. unfold PassManager.list_index.
  assert (0 < Z.of_nat n) as Hn by lia.
  pose proof (Z.mod_pos_bound index (Z.of_nat n) Hn) as Hmod.
  split; [|lia].
  case_bool_decide as H1.
  - by rewrite Z.mod_small.
  - rewrite bool_decide_eq_true_2 by lia. do 2 f_equal.
    rewrite <- (Z.mod_add index 1) by lia. rewrite Z.mod_small; lia.
Qed.

Lemma list_index_invalid (n : nat) (index : Z) :
  (index < - Z.of_nat n ∨ Z.of_nat n ≤ index)%Z →
  PassManager.list_index n index = None.
Proof.
  intros Hrange. unfold PassManager.list_index.
  by rewrite !bool_decide_eq_false_2 by lia.
Qed.

Lemma list_index_last (n : nat) :
  PassManager.list_index (S n) (-1) = Some n.
Proof.
  unfold PassManager.list_index.
  rewrite bool_decide_eq_false_2 by lia.
  rewrite bool_decide_eq_true_2 by lia. f_equal. lia.
Qed.

Lemma append_Return (self self' : PassManager.t) passes max_iteration
    flow_controller_conditions :
  PassManager.append self passes max_iteration flow_controller_conditions
  = (self', Return ()) →
  ∃ ps, PassManager._normalize_passes passes = Return ps ∧
        self' = PassManager.with_pass_sets
                  (PassManager.set_max_iteration self max_iteration)
                  (PassManager._pass_sets self ++
                     [{| PassManager.passes := ps;
                         PassManager.flow_controllers :=
                           flow_controller_conditions |}]).
Proof.
  unfold PassManager.append.
  destruct (PassManager._normalize_passes passes) as [ps|e]; [|done].
  intros [= <-]. exists ps. split; [done |]. f_equal.
  unfold PassManager.set_max_iteration.
  destruct max_iteration as [n|]; [|done]. by case_bool_decide.
Qed.

(** X8.  An [append] that returns adds exactly one pass set at the end: the
    earlier pass sets are untouched, the length grows by one, the new pass
    set carries the flow-controller keywords of the call, and it is what
    the subscript [-1] then gives. *)
Theorem append_adds_last_pass_set (self self' : PassManager.t) passes
    max_iteration flow_controller_conditions :
  PassManager.append self passes max_iteration flow_controller_conditions
  = (self', Return ()) →
  ∃ pass_set,
    PassManager._pass_sets self' = PassManager._pass_sets self ++ [pass_set] ∧
    PassManager.flow_controllers pass_set = flow_controller_conditions ∧
    PassManager.__len__ self' = S (PassManager.__len__ self) ∧
    PassManager.__getitem__ self' (PassManager.IndexInt (-1))
    = PassManager.Item
        {| PassManager._pass_sets := [pass_set];
           PassManager.max_iteration := PassManager.max_iteration self';
           PassManager.property_set := None |}.
Proof.
  intros (ps & _ & ->)%append_Return. eexists. split; [reflexivity |].
  split; [reflexivity |]. split.
  - unfold PassManager.__len__. cbn. rewrite length_app. simpl. lia.
  - unfold PassManager.__getitem__. cbn [PassManager._pass_sets
      PassManager.with_pass_sets].
    rewrite length_app, Nat.add_1_r, list_index_last.
    by rewrite lookup_app_r, Nat.sub_diag by lia.
Qed.

Lemma append_adds_last_pass_set_witness :
  ∃ pass_set,
    PassManager._pass_sets Samples.two_set_manager
    = PassManager._pass_sets Samples.one_set_manager ++ [pass_set] ∧
    PassManager.flow_controllers pass_set
    = PassManager.flow_controllers Samples.conditional_pass_set ∧
    PassManager.__len__ Samples.two_set_manager
    = S (PassManager.__len__ Samples.one_set_manager) ∧
    PassManager.__getitem__ Samples.two_set_manager (PassManager.IndexInt (-1))
    = PassManager.Item
        {| PassManager._pass_sets := [pass_set];
           PassManager.max_iteration :=
             PassManager.max_iteration Samples.two_set_manager;
           PassManager.property_set := None |}.
Proof.
  apply (append_adds_last_pass_set Samples.one_set_manager
           Samples.two_set_manager
           (PassManager.ArgPass Samples.identity_pass) None
           (PassManager.flow_controllers Samples.conditional_pass_set)).
  reflexivity.
Defined.

(** X9.  Removing the last pass set (index [-1]) after an [append] that
    returned gives back the pass sets there were before the [append]. *)
Theorem append_then_remove_last (self self' : PassManager.t) passes
    max_iteration flow_controller_conditions :
  PassManager.append self passes max_iteration flow_controller_conditions
  = (self', Return ()) →
  PassManager.remove self' (-1)
  = (PassManager.with_pass_sets self' (PassManager._pass_sets self), Return ()).
Proof.
  intros (ps & _ & ->)%append_Return. unfold PassManager.remove.
  cbn [PassManager._pass_sets PassManager.with_pass_sets].
  rewrite length_app, Nat.add_1_r, list_index_last. do 2 f_equal.
  induction (PassManager._pass_sets self) as [|x l IH]; [done |].
  simpl. by rewrite IH.
Qed.

Lemma append_then_remove_last_witness :
  PassManager.remove Samples.two_set_manager (-1)
  = (PassManager.with_pass_sets Samples.two_set_manager
       (PassManager._pass_sets Samples.one_set_manager), Return ()).
Proof.
  apply (append_then_remove_last Samples.one_set_manager
           Samples.two_set_manager
           (PassManager.ArgPass Samples.identity_pass) None
           (PassManager.flow_controllers Samples.conditional_pass_set)).
  reflexivity.
Defined.

Lemma normalize_rejects l class :
  PassManager.ObjOther class ∈ l →
  ∃ class',
    PassManager.ObjOther class' ∈ l ∧
    PassManager._normalize_passes (PassManager.ArgList l)
    = Raise (TranspilerError
               (class' +:+ " is not a BasePass or FlowController instance ")).
Proof.
  intros Hin. unfold PassManager._normalize_passes.
  induction l as [|o l IH]; [by apply elem_of_nil in Hin |].
  cbn [forM]. destruct o as [p|fc|c].
  - apply elem_of_cons in Hin as [|Hin]; [done |].
    destruct (IH Hin) as (class' & Hin' & Hraise).
    exists class'. split; [by right |]. rewrite bind_Return.
    destruct (forM _ l); [done |]. simpl in *. by injection Hraise as ->.
  - apply elem_of_cons in Hin as [|Hin]; [done |].
    destruct (IH Hin) as (class' & Hin' & Hraise).
    exists class'. split; [by right |]. rewrite bind_Return.
    destruct (forM _ l); [done |]. simpl in *. by injection Hraise as ->.
  - exists c. split; [by left | done].
Qed.

(** X10.  An [append] of a list that has an element which is neither a
    pass nor a flow controller raises a [TranspilerError] that names the
    class of such an element; the pass sets stay as they were, but a
    [max_iteration] given with the call has already been stored. *)
Theorem append_rejects_non_pass (self : PassManager.t) l class max_iteration
    flow_controller_conditions :
  PassManager.ObjOther class ∈ l →
  ∃ class',
    PassManager.ObjOther class' ∈ l ∧
    PassManager.append self (PassManager.ArgList l) max_iteration
      flow_controller_conditions
    = (PassManager.set_max_iteration self max_iteration,
       Raise (TranspilerError
                (class' +:+ " is not a BasePass or FlowController instance ")))
    ∧ PassManager._pass_sets
        (PassManager.set_max_iteration self max_iteration)
      = PassManager._pass_sets self.
Proof.
  intros (class' & Hin & Hraise)%normalize_rejects.
  exists class'. split; [done |]. split.
  - unfold PassManager.append. by rewrite Hraise.
  - unfold PassManager.set_max_iteration.
    destruct max_iteration as [n|]; [|done]. by case_bool_decide.
Qed.

Lemma append_rejects_non_pass_witness :
  ∃ class',
    PassManager.ObjOther class'
    ∈ [PassManager.ObjPass Samples.identity_pass; PassManager.ObjOther "int"] ∧
    PassManager.append Samples.one_set_manager
      (PassManager.ArgList
         [PassManager.ObjPass Samples.identity_pass; PassManager.ObjOther "int"])
      (Some 5) []
    = (PassManager.set_max_iteration Samples.one_set_manager (Some 5),
       Raise (TranspilerError
                (class' +:+ " is not a BasePass or FlowController instance ")))
    ∧ PassManager._pass_sets
        (PassManager.set_max_iteration Samples.one_set_manager (Some 5))
      = PassManager._pass_sets Samples.one_set_manager.
Proof.
  apply (append_rejects_non_pass Samples.one_set_manager
           [PassManager.ObjPass Samples.identity_pass; PassManager.ObjOther "int"]
           "int" (Some 5) []).
  right. left.
Defined.

(** X11.  After [append] or [replace] the iteration ceiling of the manager
    is the [max_iteration] of the call when that is a nonzero int, and the
    old ceiling when it is 0 or left out, and this whether the call returns
    or raises. *)
Theorem append_replace_max_iteration (self : PassManager.t) passes index
    max_iteration flow_controller_conditions :
  let ceiling :=
    match max_iteration with
    | Some n => if bool_decide (n = 0) then PassManager.max_iteration self else n
    | None => PassManager.max_iteration self
    end in
  PassManager.max_iteration
    (PassManager.append self passes max_iteration flow_controller_conditions).1
  = ceiling ∧
  PassManager.max_iteration
    (PassManager.replace self index passes max_iteration
       flow_controller_conditions).1
  = ceiling.
Proof.
  assert (PassManager.max_iteration
            (PassManager.set_max_iteration self max_iteration)
          = match max_iteration with
            | Some n =>
                if bool_decide (n = 0) then PassManager.max_iteration self else n
            | None => PassManager.max_iteration self
            end) as Hset.
  { unfold PassManager.set_max_iteration.
    destruct max_iteration as [n|]; [|done]. by case_bool_decide. }
  cbv zeta. split.
  - unfold PassManager.append.
    by destruct (PassManager._normalize_passes passes).
  - unfold PassManager.replace.
    destruct (PassManager._normalize_passes passes); [|done].
    by destruct (PassManager.list_index _ index).
Qed.

(** X12.  [replace] at an index that Python accepts for the list of pass
    sets (from [-len] to [len - 1]) returns, puts the new pass set at the
    position the index denotes, and leaves the other pass sets and the
    length as they were. *)
Theorem replace_valid_index (self : PassManager.t) index passes ps
    max_iteration flow_controller_conditions :
  PassManager._normalize_passes passes = Return ps →
  (- Z.of_nat (PassManager.__len__ self) ≤ index
   < Z.of_nat (PassManager.__len__ self))%Z →
  let r := PassManager.replace self index passes max_iteration
             flow_controller_conditions in
  let pos := Z.to_nat (index `mod` Z.of_nat (PassManager.__len__ self)) in
  r.2 = Return () ∧
  PassManager._pass_sets r.1 !! pos
  = Some {| PassManager.passes := ps;
            PassManager.flow_controllers := flow_controller_conditions |} ∧
  (∀ j, j ≠ pos →
        PassManager._pass_sets r.1 !! j = PassManager._pass_sets self !! j) ∧
  PassManager.__len__ r.1 = PassManager.__len__ self.
Proof.
  intros Hnorm Hrange r pos. subst r pos. unfold PassManager.__len__ in *.
  destruct (list_index_valid _ _ Hrange) as [Hidx Hlt].
  assert (PassManager._pass_sets
            (PassManager.set_max_iteration self max_iteration)
          = PassManager._pass_sets self) as Hsets.
  { unfold PassManager.set_max_iteration.
    destruct max_iteration as [n|]; [|done]. by case_bool_decide. }
  unfold PassManager.replace. rewrite Hnorm, Hsets, Hidx.
  cbn [fst snd PassManager._pass_sets PassManager.with_pass_sets].
  rewrite ?Hsets. split; [done |]. split; [|split].
  - by apply list_lookup_insert_eq.
  - intros j Hj. by apply list_lookup_insert_ne.
  - apply length_insert.
Qed.

Lemma replace_valid_index_witness :
  let r := PassManager.replace Samples.two_set_manager (-2)
             (PassManager.ArgPass Samples.identity_pass) None
             [("condition", λ _, false)] in
  let pos := Z.to_nat ((-2) `mod` Z.of_nat 2) in
  r.2 = Return () ∧
  PassManager._pass_sets r.1 !! pos
  = Some {| PassManager.passes :=
              PassManager.PassList [inl Samples.identity_pass];
            PassManager.flow_controllers := [("condition", λ _, false)] |} ∧
  (∀ j, j ≠ pos →
        PassManager._pass_sets r.1 !! j
        = PassManager._pass_sets Samples.two_set_manager !! j) ∧
  PassManager.__len__ r.1 = PassManager.__len__ Samples.two_set_manager.
Proof.
  apply (replace_valid_index Samples.two_set_manager (-2)
           (PassManager.ArgPass Samples.identity_pass)
           (PassManager.PassList [inl Samples.identity_pass]) None
           [("condition", λ _, false)]).
  - reflexivity.
  - change (- 2 ≤ -2 < 2)%Z. lia.
Defined.

(** X13.  At an index outside that range [remove] raises, and so does
    [replace] once its passes are accepted, the [TranspilerError] "Index to
    replace <index> does not exists"; the pass sets stay as they were. *)
Theorem replace_remove_index_out_of_range (self : PassManager.t) index passes
    ps max_iteration flow_controller_conditions :
  PassManager._normalize_passes passes = Return ps →
  (index < - Z.of_nat (PassManager.__len__ self)
   ∨ Z.of_nat (PassManager.__len__ self) ≤ index)%Z →
  PassManager.replace self index passes max_iteration
    flow_controller_conditions
  = (PassManager.set_max_iteration self max_iteration,
     Raise (TranspilerError
              ("Index to replace " +:+ str_Z index +:+ " does not exists"))) ∧
  PassManager._pass_sets (PassManager.set_max_iteration self max_iteration)
  = PassManager._pass_sets self ∧
  PassManager.remove self index
  = (self,
     Raise (TranspilerError
              ("Index to replace " +:+ str_Z index +:+ " does not exists"))).
Proof.
  intros Hnorm Hrange. unfold PassManager.__len__ in Hrange.
  assert (PassManager._pass_sets
            (PassManager.set_max_iteration self max_iteration)
          = PassManager._pass_sets self) as Hsets.
  { unfold PassManager.set_max_iteration.
    destruct max_iteration as [n|]; [|done]. by case_bool_decide. }
  split; [|split; [done |]].
  - unfold PassManager.replace.
    by rewrite Hnorm, Hsets, (list_index_invalid _ _ Hrange).
  - unfold PassManager.remove. by rewrite (list_index_invalid _ _ Hrange).
Qed.

Lemma replace_remove_index_out_of_range_witness :
  PassManager.replace Samples.two_set_manager 2
    (PassManager.ArgPass Samples.identity_pass) (Some 7) []
  = (PassManager.set_max_iteration Samples.two_set_manager (Some 7),
     Raise (TranspilerError
              ("Index to replace " +:+ str_Z 2 +:+ " does not exists"))) ∧
  PassManager._pass_sets
    (PassManager.set_max_iteration Samples.two_set_manager (Some 7))
  = PassManager._pass_sets Samples.two_set_manager ∧
  PassManager.remove Samples.two_set_manager 2
  = (Samples.two_set_manager,
     Raise (TranspilerError
              ("Index to replace " +:+ str_Z 2 +:+ " does not exists"))).
Proof.
  apply (replace_remove_index_out_of_range Samples.two_set_manager 2
           (PassManager.ArgPass Samples.identity_pass)
           (PassManager.PassList [inl Samples.identity_pass]) (Some 7) []).
  - reflexivity.
  - right. change (2 ≤ 2)%Z. lia.
Defined.

(** X14.  [remove] at an index in range returns and takes out the pass set
    at the position the index denotes: the pass sets before it keep their
    places, those after it move up by one, and the length drops by one. *)
Theorem remove_valid_index (self : PassManager.t) index :
  (- Z.of_nat (PassManager.__len__ self) ≤ index
   < Z.of_nat (PassManager.__len__ self))%Z →
  let r := PassManager.remove self index in
  let pos := Z.to_nat (index `mod` Z.of_nat (PassManager.__len__ self)) in
  r.2 = Return () ∧
  (∀ j, (j < pos)%nat →
        PassManager._pass_sets r.1 !! j = PassManager._pass_sets self !! j) ∧
  (∀ j, (pos ≤ j)%nat →
        PassManager._pass_sets r.1 !! j
        = PassManager._pass_sets self !! S j) ∧
  S (PassManager.__len__ r.1) = PassManager.__len__ self.
Proof.
  intros Hrange r pos. subst r pos. unfold PassManager.__len__ in *.
  destruct (list_index_valid _ _ Hrange) as [Hidx Hlt].
  unfold PassManager.remove. rewrite Hidx.
  cbn [fst snd PassManager._pass_sets PassManager.with_pass_sets].
  split; [done |]. split; [|split].
  - intros j Hj. by apply list_lookup_delete_lt.
  - intros j Hj. by apply list_lookup_delete_ge.
  - rewrite length_delete; [lia |]. by apply lookup_lt_is_Some_2.
Qed.

Lemma remove_valid_index_witness :
  let r := PassManager.remove Samples.two_set_manager (-2) in
  let pos := Z.to_nat ((-2) `mod` Z.of_nat 2) in
  r.2 = Return () ∧
  (∀ j, (j < pos)%nat →
        PassManager._pass_sets r.1 !! j
        = PassManager._pass_sets Samples.two_set_manager !! j) ∧
  (∀ j, (pos ≤ j)%nat →
        PassManager._pass_sets r.1 !! j
        = PassManager._pass_sets Samples.two_set_manager !! S j) ∧
  S (PassManager.__len__ r.1) = PassManager.__len__ Samples.two_set_manager.
Proof.
  apply (remove_valid_index Samples.two_set_manager (-2)).
  change (- 2 ≤ -2 < 2)%Z. lia.
Defined.

(** X15.  A subscript by an int raises [IndexError] exactly when the int is
    out of range; in range it gives a new manager that holds the one pass
    set at that position, has the iteration ceiling of the manager it was
    taken from, and no property set. *)
Theorem getitem_int (self : PassManager.t) index :
  (PassManager.__getitem__ self (PassManager.IndexInt index)
   = PassManager.RaiseIndexError
   ↔ (index < - Z.of_nat (PassManager.__len__ self)
      ∨ Z.of_nat (PassManager.__len__ self) ≤ index)%Z) ∧
  ((- Z.of_nat (PassManager.__len__ self) ≤ index
    < Z.of_nat (PassManager.__len__ self))%Z →
   ∃ pass_set,
     PassManager._pass_sets self
     !! Z.to_nat (index `mod` Z.of_nat (PassManager.__len__ self))
     = Some pass_set ∧
     PassManager.__getitem__ self (PassManager.IndexInt index)
     = PassManager.Item
         {| PassManager._pass_sets := [pass_set];
            PassManager.max_iteration := PassManager.max_iteration self;
            PassManager.property_set := None |}).
Proof.
  unfold PassManager.__len__.
  assert ((- Z.of_nat (length (PassManager._pass_sets self)) ≤ index
           < Z.of_nat (length (PassManager._pass_sets self)))%Z →
          ∃ pass_set,
            PassManager._pass_sets self
            !! Z.to_nat (index `mod`
                           Z.of_nat (length (PassManager._pass_sets self)))
            = Some pass_set ∧
            PassManager.__getitem__ self (PassManager.IndexInt index)
            = PassManager.Item
                {| PassManager._pass_sets := [pass_set];
                   PassManager.max_iteration := PassManager.max_iteration self;
                   PassManager.property_set := None |}) as Hvalid.
  { intros Hrange. destruct (list_index_valid _ _ Hrange) as [Hidx Hlt].
    apply lookup_lt_is_Some_2 in Hlt as [pass_set Hps].
    exists pass_set. split; [done |].
    unfold PassManager.__getitem__. by rewrite Hidx, Hps. }
  split; [|exact Hvalid]. split.
  - intros Hraise.
    destruct (decide (- Z.of_nat (length (PassManager._pass_sets self)) ≤ index
                      < Z.of_nat (length (PassManager._pass_sets self)))%Z)
      as [Hrange|Hrange]; [|lia].
    destruct (Hvalid Hrange) as (? & _ & Hitem). by rewrite Hitem in Hraise.
  - intros Hrange. unfold PassManager.__getitem__.
    by rewrite (list_index_invalid _ _ Hrange).
Qed.

Lemma getitem_int_witness :
  PassManager._pass_sets Samples.two_set_manager
  !! Z.to_nat ((-1) `mod` Z.of_nat 2) = Some Samples.conditional_pass_set ∧
  PassManager.__getitem__ Samples.two_set_manager (PassManager.IndexInt (-1))
  = PassManager.Item
      {| PassManager._pass_sets := [Samples.conditional_pass_set];
         PassManager.max_iteration := 1000;
         PassManager.property_set := None |}.
Proof.
  destruct (getitem_int Samples.two_set_manager (-1)) as [_ Hvalid].
  destruct Hvalid as (pass_set & Hlookup & Hitem);
    [change (- 2 ≤ -1 < 2)%Z; lia |].
  injection Hlookup as <-. split; [reflexivity | exact Hitem].
Defined.

Lemma list_slice_all {A : Type} (l : list A) :
  PassManager.list_slice l None None = l.
Proof.
  unfold PassManager.list_slice. simpl. rewrite Nat.sub_0_r.
  by rewrite drop_0, firstn_all.
Qed.

Lemma list_slice_prefix {A : Type} (l1 l2 : list A) :
  PassManager.list_slice (l1 ++ l2) None (Some (Z.of_nat (length l1))) = l1.
Proof.
  unfold PassManager.list_slice, PassManager.slice_bound.
  rewrite bool_decide_eq_false_2 by lia.
  rewrite length_app, Z.min_l by lia.
  rewrite Nat2Z.id, Nat.sub_0_r, drop_0. by rewrite take_app_length.
Qed.

Lemma list_slice_suffix {A : Type} (l1 l2 : list A) :
  PassManager.list_slice (l1 ++ l2) (Some (Z.of_nat (length l1))) None = l2.
Proof.
  unfold PassManager.list_slice, PassManager.slice_bound.
  rewrite bool_decide_eq_false_2 by lia.
  rewrite length_app, Z.min_l by lia.
  rewrite Nat2Z.id, drop_app_length.
  replace (length l1 + length l2 - length l1)%nat with (length l2) by lia.
  apply firstn_all.
Qed.

(** X16.  Slicing the sum of two managers at the length of the first gives
    the two back: the part up to it holds the pass sets of the first, the
    part from it on those of the second, and the slice without bounds is a
    copy of the pass sets; each has the ceiling of the sliced manager. *)
Theorem slices_of_a_sum (a b : PassManager.t) :
  let cut := Some (Z.of_nat (PassManager.__len__ a)) in
  let part (pass_sets : list PassManager.PassSet) :=
    Return (PassManager.Item
              {| PassManager._pass_sets := pass_sets;
                 PassManager.max_iteration := PassManager.max_iteration a;
                 PassManager.property_set := None |}) in
  (λ c, PassManager.__getitem__ c (PassManager.IndexSlice None cut))
    <$> PassManager.__add__ a (PassManager.OtherManager b)
  = part (PassManager._pass_sets a) ∧
  (λ c, PassManager.__getitem__ c (PassManager.IndexSlice cut None))
    <$> PassManager.__add__ a (PassManager.OtherManager b)
  = part (PassManager._pass_sets b) ∧
  Return (PassManager.__getitem__ a (PassManager.IndexSlice None None))
  = part (PassManager._pass_sets a).
Proof.
  cbv zeta. unfold PassManager.__len__, PassManager.__add__,
    PassManager.__getitem__.
  cbn [fmap result_fmap PassManager.with_pass_sets PassManager._pass_sets
       PassManager.max_iteration].
  by rewrite list_slice_prefix, list_slice_suffix, list_slice_all.
Qed.

(** X17.  Adding managers is associative: both groupings give the manager
    with the three lists of pass sets in order, the iteration ceiling of
    the leftmost operand and no property set. *)
Theorem add_associative (a b c : PassManager.t) :
  (let! ab := PassManager.__add__ a (PassManager.OtherManager b) in
   PassManager.__add__ ab (PassManager.OtherManager c))
  = (let! bc := PassManager.__add__ b (PassManager.OtherManager c) in
     PassManager.__add__ a (PassManager.OtherManager bc)) ∧
  (let! ab := PassManager.__add__ a (PassManager.OtherManager b) in
   PassManager.__add__ ab (PassManager.OtherManager c))
  = Return {| PassManager._pass_sets :=
                PassManager._pass_sets a ++ PassManager._pass_sets b
                ++ PassManager._pass_sets c;
              PassManager.max_iteration := PassManager.max_iteration a;
              PassManager.property_set := None |}.
Proof.
  unfold PassManager.__add__, PassManager.with_pass_sets. simpl.
  by rewrite <- app_assoc.
Qed.

Lemma normalize_exn passes e :
  PassManager._normalize_passes passes = Raise e → ∃ msg, e = TranspilerError msg.
Proof.
  destruct passes as [p|fc|l]; [done.. |]. simpl.
  induction l as [|o l IH]; [done |]. cbn [forM].
  destruct o as [p|fc|c].
  - rewrite bind_Return. destruct (forM _ l) as [?|e']; [done |].
    simpl in *. intros [= <-]. by apply IH.
  - rewrite bind_Return. destruct (forM _ l) as [?|e']; [done |].
    simpl in *. intros [= <-]. by apply IH.
  - simpl. intros [= <-]. eauto.
Qed.

(** X18.  Adding something that is not a manager appends it, as one pass
    set without flow-controller keywords, to a new manager that has the
    pass sets and the ceiling of the left operand; whenever that append is
    refused the sum raises, instead of the [TranspilerError], the
    [TypeError] "unsupported operand type + for <class of the manager> and
    <class of the operand>", which for a list with an element that is no
    pass is "... and <class 'list'>". *)
Theorem add_passes (self : PassManager.t) other :
  PassManager.__add__ self (PassManager.OtherPasses other)
  = match PassManager._normalize_passes other with
    | Return ps =>
        Return {| PassManager._pass_sets :=
                    PassManager._pass_sets self ++
                      [{| PassManager.passes := ps;
                          PassManager.flow_controllers := [] |}];
                  PassManager.max_iteration := PassManager.max_iteration self;
                  PassManager.property_set := None |}
    | Raise _ =>
        Raise (TypeError
                 ("unsupported operand type + for "
                  +:+ "<class 'qiskit.transpiler.passmanager.PassManager'>"
                  +:+ " and " +:+ PassManager.class_of other))
    end ∧
  (∀ p, PassManager._normalize_passes (PassManager.ArgPass p)
        = Return (PassManager.PassList [inl p])) ∧
  (∀ fc, PassManager._normalize_passes (PassManager.ArgFlow fc)
         = Return (PassManager.PassFlow fc)) ∧
  (∀ l class, PassManager.ObjOther class ∈ l →
     PassManager.__add__ self
       (PassManager.OtherPasses (PassManager.ArgList l))
     = Raise (TypeError
                "unsupported operand type + for <class 'qiskit.transpiler.passmanager.PassManager'> and <class 'list'>")).
Proof.
  assert (PassManager.__add__ self (PassManager.OtherPasses other)
          = match PassManager._normalize_passes other with
            | Return ps =>
                Return {| PassManager._pass_sets :=
                            PassManager._pass_sets self ++
                              [{| PassManager.passes := ps;
                                  PassManager.flow_controllers := [] |}];
                          PassManager.max_iteration :=
                            PassManager.max_iteration self;
                          PassManager.property_set := None |}
            | Raise _ =>
                Raise (TypeError (PassManager.unsupported_operand other))
            end) as Hadd.
  { unfold PassManager.__add__, PassManager.append.
    cbn [PassManager.set_max_iteration].
    destruct (PassManager._normalize_passes other) as [ps|e] eqn:Hn; [done |].
    by apply normalize_exn in Hn as [msg ->]. }
  split; [exact Hadd |]. split; [done |]. split; [done |].
  intros l class (class' & _ & Hraise)%normalize_rejects.
  unfold PassManager.__add__, PassManager.append.
  cbn [PassManager.set_max_iteration]. by rewrite Hraise.
Qed.

Lemma passes_map (self : PassManager.t) :
  PassManager.passes_ self
  = PassManager.passes_item <$> PassManager._pass_sets self.
Proof.
  unfold PassManager.passes_.
  assert (∀ l ret,
            fold_left (λ (ret : list PassManager.PassesItem) pass_set,
                         ret ++ [PassManager.passes_item pass_set]) l ret
            = ret ++ (PassManager.passes_item <$> l)) as G.
  { induction l as [|x l IH]; intros ret; simpl.
    - by rewrite app_nil_r.
    - rewrite IH. by rewrite <- app_assoc. }
  apply G.
Qed.

(** X19.  [passes()] lists one item per pass set, in order, and the list
    for a sum of two managers is the list of the first followed by the
    list of the second. *)
Theorem passes_of_a_sum (a b : PassManager.t) :
  length (PassManager.passes_ a) = PassManager.__len__ a ∧
  PassManager.passes_ <$> PassManager.__add__ a (PassManager.OtherManager b)
  = Return (PassManager.passes_ a ++ PassManager.passes_ b).
Proof.
  rewrite !passes_map. split.
  - unfold PassManager.__len__. apply length_fmap.
  - unfold PassManager.__add__, PassManager.with_pass_sets.
    cbn [fmap result_fmap]. rewrite passes_map.
    cbn [PassManager._pass_sets]. by rewrite fmap_app.
Qed.

(** X20.  Unless [run] takes its early return (no pass set, no output name,
    no callback), running a list of exactly one circuit is running that
    circuit: the value is the bare circuit, not a list, and the manager is
    left the same way. *)
Theorem run_one_element_list (self : PassManager.t) circuit output_name
    callback :
  ¬ (PassManager._pass_sets self = [] ∧ output_name = None ∧ callback = None) →
  PassManager.run self (PassManager.Several [circuit]) output_name callback
  = PassManager.run self (PassManager.Single circuit) output_name callback.
Proof.
  intros Hslow. unfold PassManager.run.
  destruct (bool_decide (PassManager._pass_sets self = [])
            && bool_decide (output_name = None)
            && bool_decide (callback = None)) eqn:Hguard; [|done].
  destruct Hslow.
  apply andb_prop in Hguard as [Hguard ?%bool_decide_eq_true].
  by apply andb_prop in Hguard as [?%bool_decide_eq_true ?%bool_decide_eq_true].
Qed.

Lemma run_one_element_list_witness :
  PassManager.run Samples.one_set_manager
    (PassManager.Several [Samples.chain_ABC]) None None
  = PassManager.run Samples.one_set_manager
      (PassManager.Single Samples.chain_ABC) None None.
Proof.
  apply (run_one_element_list Samples.one_set_manager Samples.chain_ABC
           None None).
  intros [Hsets _]. discriminate Hsets.
Defined.

(** X21.  On a manager with pass sets, running a list of no or of several
    circuits ignores the output name and the callback, and leaves the
    manager, its property set included, as it was. *)
Theorem run_several_drops_name_and_callback (self : PassManager.t) circuits
    output_name callback :
  PassManager._pass_sets self ≠ [] →
  length circuits ≠ 1%nat →
  PassManager.run self (PassManager.Several circuits) output_name callback
  = PassManager.run self (PassManager.Several circuits) None None ∧
  PassManager.self_after
    (PassManager.run self (PassManager.Several circuits) output_name callback)
  = self.
Proof.
  intros Hsets Hlen. unfold PassManager.run.
  rewrite (bool_decide_eq_false_2 _ Hsets). cbn [andb].
  by destruct circuits as [|c [|c' cs]].
Qed.

Lemma run_several_drops_name_and_callback_witness :
  PassManager.run Samples.one_set_manager
    (PassManager.Several [Samples.chain_ABC; Samples.empty_track])
    (Some "out") (Some "log")
  = PassManager.run Samples.one_set_manager
      (PassManager.Several [Samples.chain_ABC; Samples.empty_track]) None None ∧
  PassManager.self_after
    (PassManager.run Samples.one_set_manager
       (PassManager.Several [Samples.chain_ABC; Samples.empty_track])
       (Some "out") (Some "log"))
  = Samples.one_set_manager.
Proof.
  apply (run_several_drops_name_and_callback Samples.one_set_manager
           [Samples.chain_ABC; Samples.empty_track] (Some "out") (Some "log")).
  - discriminate.
  - discriminate.
Defined.

(* ===================================================================== *)
(** ** More about [StagedPassManager] *)
(* ===================================================================== *)

Lemma setattr_stages (self : StagedPassManager.t) attr value :
  StagedPassManager.stages (StagedPassManager.__setattr__ self attr value)
  = StagedPassManager.stages self.
Proof. unfold StagedPassManager.__setattr__. by destruct (_ || _ || _). Qed.

Lemma setattr_slots (self : StagedPassManager.t) attr value :
  StagedPassManager.slots (StagedPassManager.__setattr__ self attr value)
  = <[attr := value]> (StagedPassManager.slots self).
Proof. unfold StagedPassManager.__setattr__. by destruct (_ || _ || _). Qed.

Lemma setattr_max_iteration (self : StagedPassManager.t) attr value :
  PassManager.max_iteration
    (StagedPassManager.base (StagedPassManager.__setattr__ self attr value))
  = PassManager.max_iteration (StagedPassManager.base self).
Proof. unfold StagedPassManager.__setattr__. by destruct (_ || _ || _). Qed.

Lemma not_a_slot_slot_name (self : StagedPassManager.t) attr :
  StagedPassManager.not_a_slot self attr
  = negb (StagedPassManager.slot_name (StagedPassManager.stages self) attr).
Proof.
  unfold StagedPassManager.not_a_slot, StagedPassManager.slot_name.
  destruct (String.prefix "pre_" attr), (String.prefix "post_" attr);
    repeat case_bool_decide; simpl; first [done | exfalso; tauto].
Qed.

(** The three assignments per stage at the start of [__init__] and the
    keyword assignments keep the stages and the ceiling. *)
Lemma init_slots_stages stages : ∀ self,
  let self' :=
    fold_left (λ (self : StagedPassManager.t) (stage : string),
                 let self := StagedPassManager.__setattr__ self
                               ("pre_" +:+ stage) None in
                 let self := StagedPassManager.__setattr__ self stage None in
                 StagedPassManager.__setattr__ self ("post_" +:+ stage) None)
      stages self in
  StagedPassManager.stages self' = StagedPassManager.stages self ∧
  PassManager.max_iteration (StagedPassManager.base self')
  = PassManager.max_iteration (StagedPassManager.base self).
Proof.
  induction stages as [|stage stages IH]; intros self; cbn [fold_left];
    [done |].
  specialize (IH (StagedPassManager.__setattr__
                    (StagedPassManager.__setattr__
                       (StagedPassManager.__setattr__ self ("pre_" +:+ stage)
                          None)
                       stage None) ("post_" +:+ stage) None)).
  cbv zeta in *. destruct IH as [-> ->].
  by rewrite !setattr_stages, !setattr_max_iteration.
Qed.

Lemma init_kwargs_Return kwargs : ∀ (self self' : StagedPassManager.t),
  foldM (λ (self : StagedPassManager.t) (kw : string * option PassManager.t),
           if StagedPassManager.not_a_slot self kw.1
           then Raise (AttributeError (kw.1 +:+ " is not a valid stage."))
           else Return (StagedPassManager.__setattr__ self kw.1 kw.2))
    self kwargs = Return self' →
  StagedPassManager.stages self' = StagedPassManager.stages self ∧
  PassManager.max_iteration (StagedPassManager.base self')
  = PassManager.max_iteration (StagedPassManager.base self) ∧
  Forall (λ kw, StagedPassManager.slot_name (StagedPassManager.stages self) kw.1
                = true) kwargs ∧
  (∀ attr, attr ∉ kwargs.*1 →
           StagedPassManager.slots self' !! attr
           = StagedPassManager.slots self !! attr) ∧
  (NoDup kwargs.*1 →
   ∀ kw, kw ∈ kwargs → StagedPassManager.slots self' !! kw.1 = Some kw.2).
Proof.
  induction kwargs as [|kw kwargs IH]; intros self self'; cbn [foldM].
  - intros [= <-]. repeat split; try done. by intros _ kw ?%elem_of_nil.
  - rewrite not_a_slot_slot_name.
    destruct (StagedPassManager.slot_name _ kw.1) eqn:Hslot; [|done].
    cbn [negb]. rewrite bind_Return. intros Hrest.
    apply IH in Hrest as (Hst & Hmi & Hall & Hother & Hkw).
    rewrite setattr_stages in Hst, Hall. rewrite setattr_max_iteration in Hmi.
    rewrite setattr_slots in Hother.
    split; [done |]. split; [done |]. split; [by constructor |]. split.
    + intros attr Hattr. rewrite fmap_cons, not_elem_of_cons in Hattr.
      destruct Hattr as [Hne Hattr].
      rewrite (Hother attr Hattr). by rewrite lookup_insert_ne.
    + rewrite fmap_cons. intros [Hfresh Hnd]%NoDup_cons kw' Hin.
      apply elem_of_cons in Hin as [->|Hin]; [|by apply Hkw].
      rewrite (Hother kw.1 Hfresh). apply lookup_insert_eq.
Qed.

(** X22.  For stage names in ASCII that are not names of attributes the
    instance or its classes have, a staged manager that the constructor
    returns has the stages it was given (the six default stages when none
    is given), each of them free of white space and of the refused
    punctuation, the iteration ceiling 1000, every keyword naming a slot
    of these stages, the slots holding the values of the keywords, and the
    underlying pass sets equal to the flattening of the slots: stage by
    stage, pre, stage, post. *)
Theorem staged_init_invariant stages kwargs (self : StagedPassManager.t) :
  (∀ given, stages = Some given →
            Forall (λ stage, StagedPassManager.plain_stage stage = true)
              given) →
  StagedPassManager.__init__ stages kwargs = Return self →
  StagedPassManager.stages self
  = default StagedPassManager.default_stages stages ∧
  (∀ given, stages = Some given →
            Forall (λ stage, StagedPassManager.invalid_stage stage = false)
              given) ∧
  PassManager.max_iteration (StagedPassManager.base self) = 1000 ∧
  Forall (λ kw, StagedPassManager.slot_name (StagedPassManager.stages self) kw.1
                = true) kwargs ∧
  (NoDup kwargs.*1 →
   ∀ kw, kw ∈ kwargs → StagedPassManager.slots self !! kw.1 = Some kw.2) ∧
  PassManager._pass_sets (StagedPassManager.base self)
  = StagedPassManager.flattening self.
Proof.
  intros _.
  unfold StagedPassManager.__init__.
  set (checked := match stages with
                  | Some given => _
                  | None => Return StagedPassManager.default_stages
                  end).
  destruct checked as [stages'|e] eqn:Hchecked; [|done]. subst checked.
  assert (stages' = default StagedPassManager.default_stages stages ∧
          ∀ given, stages = Some given →
                   Forall (λ stage, StagedPassManager.invalid_stage stage = false)
                     given) as [Hst Hvalid].
  { destruct stages as [given|]; cbn [default].
    - destruct (filter _ given) as [|bad rest] eqn:Hf; [|done].
      injection Hchecked as <-. split; [done |]. intros ? [= <-].
      apply Forall_forall. intros stage Hin.
      destruct (StagedPassManager.invalid_stage stage) eqn:Hinv; [|done].
      assert (stage ∈ filter (λ stage, StagedPassManager.invalid_stage stage
                                        = true) given) as Hbad
        by (by apply list_elem_of_filter).
      rewrite Hf in Hbad. by apply elem_of_nil in Hbad.
    - injection Hchecked as <-. split; [done |]. by intros ? [=]. }
  rewrite bind_Return. cbn [PassManager.__init__ default bind].
  match goal with
  | |- context [foldM ?f ?init kwargs] =>
      destruct (foldM f init kwargs) as [self1|e] eqn:Hkw; [|done]
  end.
  rewrite bind_Return. intros [= <-].
  apply init_kwargs_Return in Hkw as (Hst1 & Hmi1 & Hall & _ & Hslots).
  match type of Hst1 with
  | _ = StagedPassManager.stages (fold_left ?f stages' ?s0) =>
      destruct (init_slots_stages stages' s0) as [Hst0 Hmi0]
  end.
  cbv zeta in Hst0, Hmi0. rewrite Hst0 in Hst1, Hall. rewrite Hmi0 in Hmi1.
  cbn in Hst1, Hmi1, Hall.
  assert (StagedPassManager.stages
            (StagedPassManager._update_passmanager self1) = stages') as ->
    by (unfold StagedPassManager._update_passmanager; exact Hst1).
  split; [done |]. split; [done |].
  split; [unfold StagedPassManager._update_passmanager; exact Hmi1 |].
  split; [done |].
  split.
  - intros Hnd kw Hin. rewrite <- (Hslots Hnd kw Hin). reflexivity.
  - rewrite update_passmanager_flattening. reflexivity.
Qed.

Lemma staged_init_invariant_witness :
  StagedPassManager.stages Samples.staged_one_two
  = default StagedPassManager.default_stages (Some ["one"; "two"]) ∧
  (∀ given, Some ["one"; "two"] = Some given →
            Forall (λ stage, StagedPassManager.invalid_stage stage = false)
              given) ∧
  PassManager.max_iteration (StagedPassManager.base Samples.staged_one_two)
  = 1000 ∧
  Forall (λ kw : string * option PassManager.t,
            StagedPassManager.slot_name
              (StagedPassManager.stages Samples.staged_one_two) kw.1 = true)
    Samples.staged_keywords ∧
  (NoDup Samples.staged_keywords.*1 →
   ∀ kw, kw ∈ Samples.staged_keywords →
         StagedPassManager.slots Samples.staged_one_two !! kw.1 = Some kw.2) ∧
  PassManager._pass_sets (StagedPassManager.base Samples.staged_one_two)
  = StagedPassManager.flattening Samples.staged_one_two.
Proof.
  apply (staged_init_invariant (Some ["one"; "two"]) Samples.staged_keywords
           Samples.staged_one_two).
  - intros given [= <-]. repeat constructor.
  - vm_compute. reflexivity.
Defined.

(** The manager of the witness has three pass sets: the one of [pre_one],
    then the two of [two]. *)
Example staged_one_two_flattening :
  StagedPassManager.flattening Samples.staged_one_two
  = [Samples.one_pass_set; Samples.one_pass_set;
     Samples.conditional_pass_set].
Proof. vm_compute. reflexivity. Qed.

Lemma string_append_assoc (a b c : string) :
  (a +:+ b) +:+ c = a +:+ (b +:+ c).
Proof.
  induction a as [|ch a IH]; [reflexivity |].
  change (String ch ((a +:+ b) +:+ c) = String ch (a +:+ b +:+ c)).
  by rewrite IH.
Qed.

Lemma invalid_stages_message_prefix first others :
  ∃ names,
    StagedPassManager.invalid_stages_message (first :: others)
    = "The following stage names are not valid: " +:+ names.
Proof.
  unfold StagedPassManager.invalid_stages_message.
  assert (∀ (l : list string) (p x : string),
            fold_left (λ (msg : string) (invalid_stage : string),
                         msg +:+ ", " +:+ invalid_stage) l (p +:+ x)
            = p +:+ fold_left (λ (msg : string) (invalid_stage : string),
                                 msg +:+ ", " +:+ invalid_stage) l x) as G.
  { induction l as [|s l IH]; intros p x; cbn [fold_left]; [done |].
    cbv beta. by rewrite string_append_assoc, IH. }
  eexists. apply G.
Qed.

(** X23.  The constructor refuses a list of stages as soon as one name has
    white space or one of the refused punctuation characters: it raises a
    [ValueError] whose message starts with "The following stage names are
    not valid: ", whatever the keywords. *)
Theorem staged_init_rejects_invalid_stage stages kwargs stage :
  stage ∈ stages →
  StagedPassManager.invalid_stage stage = true →
  ∃ names,
    StagedPassManager.__init__ (Some stages) kwargs
    = Raise (ValueError
               ("The following stage names are not valid: " +:+ names)).
Proof.
  intros Hin Hinv. unfold StagedPassManager.__init__.
  destruct (filter (λ stage, StagedPassManager.invalid_stage stage = true)
              stages) as [|first others] eqn:Hf.
  - assert (stage ∈ filter (λ stage, StagedPassManager.invalid_stage stage
                                      = true) stages) as Hbad
      by (by apply list_elem_of_filter).
    rewrite Hf in Hbad. by apply elem_of_nil in Hbad.
  - destruct (invalid_stages_message_prefix first others) as [names ->].
    by exists names.
Qed.

Lemma staged_init_rejects_invalid_stage_witness :
  ∃ names,
    StagedPassManager.__init__ (Some ["init"; "my stage"]) []
    = Raise (ValueError
               ("The following stage names are not valid: " +:+ names)).
Proof.
  apply (staged_init_rejects_invalid_stage ["init"; "my stage"] [] "my stage").
  - right. left.
  - reflexivity.
Defined.

(** X24.  With stages whose names are in ASCII, free of white space and of
    the refused punctuation, and not names of attributes the instance or
    its classes have, the constructor refuses the first keyword that is
    neither a stage nor [pre_] or [post_] followed by a stage: it raises
    the [AttributeError] "<keyword> is not a valid stage.". *)
Theorem staged_init_rejects_unknown_keyword stages good attr value rest :
  (∀ given, stages = Some given →
            Forall (λ stage, StagedPassManager.plain_stage stage = true)
              given) →
  (∀ given, stages = Some given →
            Forall (λ stage, StagedPassManager.invalid_stage stage = false)
              given) →
  let declared := default StagedPassManager.default_stages stages in
  Forall (λ kw : string * option PassManager.t,
            StagedPassManager.slot_name declared kw.1 = true) good →
  StagedPassManager.slot_name declared attr = false →
  StagedPassManager.__init__ stages (good ++ (attr, value) :: rest)
  = Raise (AttributeError (attr +:+ " is not a valid stage.")).
Proof.
  intros _ Hvalid declared Hgood Hattr. subst declared.
  unfold StagedPassManager.__init__.
  assert (match stages with
          | Some given =>
              match filter (λ stage, StagedPassManager.invalid_stage stage
                                     = true) given with
              | [] => Return given
              | invalid_stages =>
                  Raise (ValueError
                           (StagedPassManager.invalid_stages_message
                              invalid_stages))
              end
          | None => Return StagedPassManager.default_stages
          end = Return (default StagedPassManager.default_stages stages))
    as ->.
  { destruct stages as [given|]; [|done]. cbn [default].
    destruct (filter _ given) as [|bad others] eqn:Hf; [done |].
    assert (bad ∈ filter (λ stage, StagedPassManager.invalid_stage stage
                                    = true) given) as Hbad
      by (rewrite Hf; by left).
    apply list_elem_of_filter in Hbad as [Hinv Hin].
    specialize (Hvalid given eq_refl).
    rewrite Forall_forall in Hvalid. rewrite (Hvalid bad Hin) in Hinv. done. }
  rewrite bind_Return. cbn [PassManager.__init__ default bind].
  match goal with
  | |- context [foldM ?f (fold_left ?g ?declared ?s0) _] =>
      destruct (init_slots_stages declared s0) as [Hst0 _];
      cbv zeta in Hst0; cbn [StagedPassManager.stages] in Hst0;
      generalize dependent (fold_left g declared s0)
  end.
  intros self Hst. clear -Hgood Hattr Hst.
  revert self Hst. induction Hgood as [|kw good Hkw _ IH]; intros self Hst.
  - cbn [app foldM]. rewrite not_a_slot_slot_name, Hst. cbn [fst snd].
    by rewrite Hattr.
  - cbn [app foldM]. rewrite not_a_slot_slot_name, Hst, Hkw. cbn [negb].
    rewrite bind_Return. apply IH. by rewrite setattr_stages.
Qed.

Lemma staged_init_rejects_unknown_keyword_witness :
  StagedPassManager.__init__ (Some ["one"; "two"])
    ([("pre_one", None)] ++ ("pre_unknown", None) :: [("two", None)])
  = Raise (AttributeError ("pre_unknown" +:+ " is not a valid stage.")).
Proof.
  apply (staged_init_rejects_unknown_keyword (Some ["one"; "two"])
           [("pre_one", None)] "pre_unknown" None [("two", None)]).
  - intros given [= <-]. repeat constructor.
  - intros given [= <-]. repeat constructor.
  - repeat constructor.
  - reflexivity.
Defined.

Lemma setattr_pre_stage_base (self : StagedPassManager.t) stage value :
  stage ∈ StagedPassManager.stages self →
  "pre_" +:+ stage ∉ StagedPassManager.stages self →
  StagedPassManager.base
    (StagedPassManager.__setattr__ self ("pre_" +:+ stage) value)
  = StagedPassManager.base self.
Proof.
  intros Hin Hnot. unfold StagedPassManager.__setattr__.
  cbn [StagedPassManager.stages].
  rewrite (bool_decide_eq_false_2 _ Hnot), string_from_pre.
  rewrite (bool_decide_eq_false_2 (stage ∉ _)) by auto.
  rewrite andb_false_r. cbn [orb].
  destruct (String.prefix "post_" ("pre_" +:+ stage)) eqn:Hp; [|done].
  simpl in Hp. done.
Qed.

Lemma setattr_post_stage_base (self : StagedPassManager.t) stage value :
  stage ∈ StagedPassManager.stages self →
  "post_" +:+ stage ∉ StagedPassManager.stages self →
  StagedPassManager.base
    (StagedPassManager.__setattr__ self ("post_" +:+ stage) value)
  = StagedPassManager.base self.
Proof.
  intros Hin Hnot. unfold StagedPassManager.__setattr__.
  cbn [StagedPassManager.stages].
  rewrite (bool_decide_eq_false_2 _ Hnot), string_from_post.
  rewrite (bool_decide_eq_false_2 (stage ∉ _)) by auto.
  rewrite andb_false_r. cbn [orb].
  destruct (String.prefix "pre_" ("post_" +:+ stage)) eqn:Hp; [|done].
  simpl in Hp. done.
Qed.

(** X25.  Assigning the [pre_] or the [post_] slot of a declared stage
    stores the value in the slot but leaves the underlying pass sets, and
    so what a subscript reads, exactly as they were before the assignment
    (the names of the two slots not being stages themselves). *)
Theorem pre_post_assignment_keeps_pass_sets (self : StagedPassManager.t) stage
    value index :
  stage ∈ StagedPassManager.stages self →
  "pre_" +:+ stage ∉ StagedPassManager.stages self →
  "post_" +:+ stage ∉ StagedPassManager.stages self →
  let pre := StagedPassManager.__setattr__ self ("pre_" +:+ stage) value in
  let post := StagedPassManager.__setattr__ self ("post_" +:+ stage) value in
  StagedPassManager.getattr pre ("pre_" +:+ stage) = value ∧
  StagedPassManager.getattr post ("post_" +:+ stage) = value ∧
  PassManager._pass_sets (StagedPassManager.base pre)
  = PassManager._pass_sets (StagedPassManager.base self) ∧
  PassManager._pass_sets (StagedPassManager.base post)
  = PassManager._pass_sets (StagedPassManager.base self) ∧
  StagedPassManager.__getitem__ pre index
  = StagedPassManager.__getitem__ self index ∧
  StagedPassManager.__getitem__ post index
  = StagedPassManager.__getitem__ self index.
Proof.
  intros Hin Hpre Hpost pre post. subst pre post.
  unfold StagedPassManager.__getitem__, StagedPassManager.getattr.
  rewrite !setattr_slots, !lookup_insert_eq.
  rewrite (setattr_pre_stage_base _ _ _ Hin Hpre).
  by rewrite (setattr_post_stage_base _ _ _ Hin Hpost).
Qed.

Lemma pre_post_assignment_keeps_pass_sets_witness :
  let pre := StagedPassManager.__setattr__ Samples.default_staged
               ("pre_" +:+ "layout") (Some Samples.one_set_manager) in
  let post := StagedPassManager.__setattr__ Samples.default_staged
                ("post_" +:+ "layout") (Some Samples.one_set_manager) in
  StagedPassManager.getattr pre ("pre_" +:+ "layout")
  = Some Samples.one_set_manager ∧
  StagedPassManager.getattr post ("post_" +:+ "layout")
  = Some Samples.one_set_manager ∧
  PassManager._pass_sets (StagedPassManager.base pre)
  = PassManager._pass_sets (StagedPassManager.base Samples.default_staged) ∧
  PassManager._pass_sets (StagedPassManager.base post)
  = PassManager._pass_sets (StagedPassManager.base Samples.default_staged) ∧
  StagedPassManager.__getitem__ pre (PassManager.IndexInt 0)
  = StagedPassManager.__getitem__ Samples.default_staged
      (PassManager.IndexInt 0) ∧
  StagedPassManager.__getitem__ post (PassManager.IndexInt 0)
  = StagedPassManager.__getitem__ Samples.default_staged
      (PassManager.IndexInt 0).
Proof.
  apply (pre_post_assignment_keeps_pass_sets Samples.default_staged "layout"
           (Some Samples.one_set_manager) (PassManager.IndexInt 0)).
  - apply (bool_decide_unpack _). vm_compute. reflexivity.
  - apply (bool_decide_unpack _). vm_compute. reflexivity.
  - apply (bool_decide_unpack _). vm_compute. reflexivity.
Defined.

(** X26.  Assigning the slot of a declared stage itself stores the value
    and recomputes the underlying pass sets: they are the flattening of
    the slots as they are after the assignment, and the stages are
    unchanged. *)
Theorem stage_assignment_flattens (self : StagedPassManager.t) stage value :
  stage ∈ StagedPassManager.stages self →
  let self' := StagedPassManager.__setattr__ self stage value in
  StagedPassManager.getattr self' stage = value ∧
  StagedPassManager.stages self' = StagedPassManager.stages self ∧
  PassManager._pass_sets (StagedPassManager.base self')
  = StagedPassManager.flattening self'.
Proof.
  intros Hin self'. subst self'. split; [|split].
  - unfold StagedPassManager.getattr.
    by rewrite setattr_slots, lookup_insert_eq.
  - apply setattr_stages.
  - unfold StagedPassManager.__setattr__. cbn [StagedPassManager.stages].
    rewrite (bool_decide_eq_true_2 _ Hin). cbn [orb].
    by rewrite update_passmanager_flattening.
Qed.

Lemma stage_assignment_flattens_witness :
  let self' := StagedPassManager.__setattr__ Samples.default_staged "layout"
                 (Some Samples.one_set_manager) in
  StagedPassManager.getattr self' "layout" = Some Samples.one_set_manager ∧
  StagedPassManager.stages self'
  = StagedPassManager.stages Samples.default_staged ∧
  PassManager._pass_sets (StagedPassManager.base self')
  = StagedPassManager.flattening self'.
Proof.
  apply (stage_assignment_flattens Samples.default_staged "layout"
           (Some Samples.one_set_manager)).
  apply (bool_decide_unpack _). vm_compute. reflexivity.
Defined.

(** X27.  On a staged manager whose stage names are in ASCII and are not
    names of attributes the instance or its classes have, and whatever the
    state of the underlying pass sets, [len], [passes()] and [run] first
    recompute them: the length and the list are those of the flattening of
    the slots, [run] is the [run] of a plain manager that has the
    flattening as pass sets, and each leaves the underlying pass sets
    equal to the flattening. *)
Theorem staged_methods_reflatten (self : StagedPassManager.t) circuits
    output_name callback :
  Forall (λ stage, StagedPassManager.plain_stage stage = true)
    (StagedPassManager.stages self) →
  let flat := PassManager.with_pass_sets (StagedPassManager.base self)
                (StagedPassManager.flattening self) in
  (StagedPassManager.__len__ self).2
  = length (StagedPassManager.flattening self) ∧
  (StagedPassManager.passes_ self).2
  = PassManager.passes_item <$> StagedPassManager.flattening self ∧
  (StagedPassManager.run self circuits output_name callback).2
  = PassManager.returned
      (PassManager.run flat circuits output_name callback) ∧
  (StagedPassManager.run self circuits output_name callback).1.2
  = PassManager.trace (PassManager.run flat circuits output_name callback) ∧
  PassManager._pass_sets
    (StagedPassManager.base (StagedPassManager.__len__ self).1)
  = StagedPassManager.flattening self ∧
  PassManager._pass_sets
    (StagedPassManager.base (StagedPassManager.passes_ self).1)
  = StagedPassManager.flattening self ∧
  PassManager._pass_sets
    (StagedPassManager.base
       (StagedPassManager.run self circuits output_name callback).1.1)
  = StagedPassManager.flattening self.
Proof.
  intros _ flat.
  assert (StagedPassManager.base (StagedPassManager._update_passmanager self)
          = flat) as Hflat.
  { subst flat. unfold StagedPassManager._update_passmanager. simpl.
    by rewrite fold_extend_stage. }
  unfold StagedPassManager.__len__, StagedPassManager.passes_,
    StagedPassManager.run. cbn [fst snd StagedPassManager.base].
  rewrite Hflat, passes_map. subst flat. repeat split.
  unfold PassManager.run.
  destruct (_ && _ && _); [done |].
  destruct circuits as [c|[|c [|c' cs]]]; cbn [PassManager.self_after];
    try done.
  - unfold PassManager._run_single_circuit.
    by destruct (RunningPassManager_run _ _ _ _).
  - unfold PassManager._run_single_circuit.
    by destruct (RunningPassManager_run _ _ _ _).
Qed.

Lemma staged_methods_reflatten_witness :
  let self := StagedPassManager.__setattr__ Samples.default_staged "pre_init"
                (Some Samples.one_set_manager) in
  let circuits := PassManager.Single Samples.chain_ABC in
  let flat := PassManager.with_pass_sets (StagedPassManager.base self)
                (StagedPassManager.flattening self) in
  PassManager._pass_sets (StagedPassManager.base self) = [] ∧
  StagedPassManager.flattening self = [Samples.one_pass_set] ∧
  (StagedPassManager.__len__ self).2
  = length (StagedPassManager.flattening self) ∧
  (StagedPassManager.passes_ self).2
  = PassManager.passes_item <$> StagedPassManager.flattening self ∧
  (StagedPassManager.run self circuits None None).2
  = PassManager.returned (PassManager.run flat circuits None None) ∧
  (StagedPassManager.run self circuits None None).1.2
  = PassManager.trace (PassManager.run flat circuits None None) ∧
  PassManager._pass_sets
    (StagedPassManager.base (StagedPassManager.__len__ self).1)
  = StagedPassManager.flattening self ∧
  PassManager._pass_sets
    (StagedPassManager.base (StagedPassManager.passes_ self).1)
  = StagedPassManager.flattening self ∧
  PassManager._pass_sets
    (StagedPassManager.base
       (StagedPassManager.run self circuits None None).1.1)
  = StagedPassManager.flattening self.
Proof.
  intros self circuits flat.
  split; [vm_compute; reflexivity |]. split; [vm_compute; reflexivity |].
  apply (staged_methods_reflatten self circuits None None).
  vm_compute. repeat constructor.
Defined.

(** X28.  A manager that the constructor returns has the iteration ceiling
    it was given, 0 included, or 1000 when none is given, no property set,
    and either no pass set or the one pass set made of the passes given,
    without flow-controller keywords. *)
Theorem init_manager passes max_iteration (self : PassManager.t) :
  PassManager.__init__ passes max_iteration = Return self →
  PassManager.max_iteration self = default 1000 max_iteration ∧
  PassManager.property_set self = None ∧
  match passes with
  | None => PassManager._pass_sets self = []
  | Some given =>
      ∃ ps, PassManager._normalize_passes given = Return ps ∧
            PassManager._pass_sets self
            = [{| PassManager.passes := ps;
                  PassManager.flow_controllers := [] |}]
  end.
Proof.
  unfold PassManager.__init__. destruct passes as [given|].
  - unfold PassManager.append. cbn [PassManager.set_max_iteration].
    destruct (PassManager._normalize_passes given) as [ps|e]; [|done].
    cbn. intros [= <-]. eauto.
  - by intros [= <-].
Qed.

Lemma init_manager_witness :
  PassManager.max_iteration
    {| PassManager._pass_sets := [Samples.one_pass_set];
       PassManager.max_iteration := 0;
       PassManager.property_set := None |}
  = default 1000 (Some 0) ∧
  PassManager.property_set
    {| PassManager._pass_sets := [Samples.one_pass_set];
       PassManager.max_iteration := 0;
       PassManager.property_set := None |} = None ∧
  ∃ ps, PassManager._normalize_passes
          (PassManager.ArgPass Samples.identity_pass) = Return ps ∧
        PassManager._pass_sets
          {| PassManager._pass_sets := [Samples.one_pass_set];
             PassManager.max_iteration := 0;
             PassManager.property_set := None |}
        = [{| PassManager.passes := ps;
              PassManager.flow_controllers := [] |}].
Proof.
  apply (init_manager (Some (PassManager.ArgPass Samples.identity_pass))
           (Some 0)).
  reflexivity.
Defined.

(** The messages of the [TranspilerError]s a run can raise. *)
Lemma asap_TranspilerError_messages property_set dag msg :
  ASAPSchedule_run property_set dag = Raise (TranspilerError msg) →
  msg = "ASAP schedule runs on physical circuits only"
  ∨ ∃ rest, msg = "Duration of " +:+ rest.
Proof.
  assert (∀ e1 e2 : exn, Raise (A := DAGCircuit) e1 = Raise e2 → e1 = e2)
    as Hinj by (by intros ? ? [= ->]).
  destruct (not_physical dag) eqn:Hphys.
  - unfold ASAPSchedule_run. rewrite Hphys. intros [= <-]. by left.
  - intros Hrun. right.
    destruct (copy_registers dag) as [nd|e] eqn:Hcopy.
    + destruct (op_nodes dag) as [|node nodes] eqn:Hn.
      * revert Hrun. unfold ASAPSchedule_run, topological_op_nodes.
        rewrite Hphys, Hcopy, Hn. simpl.
        destruct (max _) as [?|e] eqn:Hmax; simpl; [done |].
        apply max_exn in Hmax. by subst e.
      * rewrite (asap_run_first_node _ _ nd node nodes) in Hrun by done.
        destruct (resolve_duration _ _ node) as [?|e] eqn:Hr; [done |].
        apply Hinj in Hrun. subst e.
        apply resolve_duration_exn in Hr as [[? ?]|[rest [= ->]]]; [done |].
        eauto.
    + revert Hrun. unfold ASAPSchedule_run. rewrite Hphys, Hcopy. simpl.
      intros Hrun%Hinj. subst e.
      by apply copy_registers_exn in Hcopy as [? ?].
Qed.

Lemma alap_TranspilerError_messages property_set dag msg :
  ALAPSchedule_run property_set dag = Raise (TranspilerError msg) →
  msg = "ALAP schedule runs on physical circuits only"
  ∨ ∃ rest, msg = "Duration of " +:+ rest.
Proof.
  assert (∀ e1 e2 : exn, Raise (A := DAGCircuit) e1 = Raise e2 → e1 = e2)
    as Hinj by (by intros ? ? [= ->]).
  destruct (not_physical dag) eqn:Hphys.
  - unfold ALAPSchedule_run. rewrite Hphys. intros [= <-]. by left.
  - intros Hrun. right.
    destruct (copy_registers dag) as [nd|e] eqn:Hcopy.
    + destruct (op_nodes dag) as [|node nodes _] eqn:Hn using rev_ind.
      * revert Hrun. unfold ALAPSchedule_run, topological_op_nodes.
        rewrite Hphys, Hcopy, Hn. simpl.
        destruct (max _) as [?|e] eqn:Hmax; simpl; [done |].
        apply max_exn in Hmax. by subst e.
      * rewrite (alap_run_last_node _ _ nd node nodes) in Hrun by done.
        destruct (resolve_duration _ _ node) as [?|e] eqn:Hr; [done |].
        apply Hinj in Hrun. subst e.
        apply resolve_duration_exn in Hr as [[? ?]|[rest [= ->]]]; [done |].
        eauto.
    + revert Hrun. unfold ALAPSchedule_run. rewrite Hphys, Hcopy. simpl.
      intros Hrun%Hinj. subst e.
      by apply copy_registers_exn in Hcopy as [? ?].
Qed.

(** X29.  Neither pass ever raises the [TranspilerError] "Parameterized
    duration (...) ... is not bounded." that lines 88-91 of [asap.py] and
    87-90 of [alap.py] hold: no run ends with a [TranspilerError] whose
    message starts with "Parameterized duration (". *)
Theorem not_bounded_error_never_raised property_set dag rest :
  ASAPSchedule_run property_set dag
  ≠ Raise (TranspilerError ("Parameterized duration (" +:+ rest)) ∧
  ALAPSchedule_run property_set dag
  ≠ Raise (TranspilerError ("Parameterized duration (" +:+ rest)).
Proof.
  split; intros Hrun.
  - by apply asap_TranspilerError_messages in Hrun as [?|[? ?]].
  - by apply alap_TranspilerError_messages in Hrun as [?|[? ?]].
Qed.
